(** * Orbitarium: the N2YO client ([n2yo_wrapper.py]) and its demonstration
    ([main.py]) as a shallow embedding

    The client issues one HTTP GET per operation, reads the JSON answer and
    reshapes it into a dictionary.  The embedding follows the Python text:

    - Python objects are the terms of [value]; a [dict] keeps its items in
      insertion order as an association list, the first binding of a key
      being the live one;
    - a [str] is the sequence of its code points, one [ascii] per code point
      (the range U+0000..U+00FF; text outside this range appears only in the
      warning that three of the operations print, where it is kept as the
      bytes of the source file);
    - exceptions are values of [exn], classified the way the [except] clauses
      of the source classify them;
    - the two effects of the client, the outbound request and the line
      printed on the console, are recorded in a [trace] that is threaded
      through the operations (the monad [M]);
    - what belongs to the Python run time and to the remote service (the
      answer to a request, the local time zone, the text of a float) is a
      field of [World]. *)

From Stdlib Require Import ZArith List String Ascii Bool Lia.
From Stdlib Require Import Floats.SpecFloat.
From Stdlib Require Import Numbers.DecimalString.
Import ListNotations.

Open Scope string_scope.
Open Scope Z_scope.

(* ================================================================== *)
(** ** Python strings *)

Module PyStr.

Definition CR : ascii := "013"%char.
Definition LF : ascii := "010"%char.
Definition CRLF : string := String CR (String LF EmptyString).

(** [str.isspace] on one code point below U+0100: the characters that
    [str.strip()] removes. *)
Definition is_space (c : ascii) : bool :=
  let n := N_of_ascii c in
  (((9 <=? n) && (n <=? 13)) || ((28 <=? n) && (n <=? 32))
   || (n =? 133) || (n =? 160))%N.

Fixpoint lstrip (s : string) : string :=
  match s with
  | EmptyString => EmptyString
  | String c r => if is_space c then lstrip r else s
  end.

Fixpoint rstrip (s : string) : string :=
  match s with
  | EmptyString => EmptyString
  | String c r =>
      match rstrip r with
      | EmptyString => if is_space c then EmptyString else String c EmptyString
      | r' => String c r'
      end
  end.

(** [s.strip()] *)
Definition strip (s : string) : string := rstrip (lstrip s).

(** Puts one more character in front of the segment being read. *)
Definition push_char (c : ascii) (segs : list string) : list string :=
  match segs with
  | [] => [String c EmptyString]
  | seg :: rest => String c seg :: rest
  end.

(** [s.split("\r\n")]: the segments between the occurrences of CR LF, read
    from the left; a string without the separator is its own single
    segment. *)
Fixpoint split_crlf (s : string) : list string :=
  match s with
  | EmptyString => [EmptyString]
  | String c r =>
      match r with
      | String d r' =>
          if (Ascii.eqb c CR && Ascii.eqb d LF)%bool
          then EmptyString :: split_crlf r'
          else push_char c (split_crlf r)
      | EmptyString => push_char c (split_crlf r)
      end
  end.

(** ["\r\n".join(segs)] *)
Fixpoint join_crlf (segs : list string) : string :=
  match segs with
  | [] => EmptyString
  | [seg] => seg
  | seg :: rest => seg ++ CRLF ++ join_crlf rest
  end.

(** [sub in s] for two strings. *)
Fixpoint contains (sub s : string) : bool :=
  match s with
  | EmptyString => prefix sub EmptyString
  | String _ r => prefix sub s || contains sub r
  end.

(** A segment is blank when it has nothing but white space. *)
Fixpoint all_space (s : string) : bool :=
  match s with
  | EmptyString => true
  | String c r => is_space c && all_space r
  end.

(** The characters of a string, each as a string of length one: what a
    [for] loop over a [str] visits. *)
Fixpoint chars (s : string) : list string :=
  match s with
  | EmptyString => []
  | String c r => String c EmptyString :: chars r
  end.

Definition is_digit (c : ascii) : bool :=
  let n := N_of_ascii c in ((48 <=? n) && (n <=? 57))%N.

Definition digit_val (c : ascii) : Z := Z.of_N (N_of_ascii c) - 48.

(** [str(n)] for an [int]. *)
Definition of_Z (z : Z) : string := NilEmpty.string_of_int (Z.to_int z).

End PyStr.

(* ================================================================== *)
(** ** Exceptions and results *)

(** The exception classes the client can meet.  [RequestValueError] stands
    for the exceptions of [requests] that derive from both
    [RequestException] and [ValueError] ([InvalidURL], [JSONDecodeError],
    and the like). *)
Inductive exn_class : Type :=
| RequestException
| RequestValueError
| ValueError
| KeyError
| TypeError
| AttributeError
| OverflowError
| OtherException.

Record exn : Type := Exn { exn_cls : exn_class; exn_msg : string }.

(** [isinstance(e, requests.RequestException)] *)
Definition is_RequestException (e : exn) : bool :=
  match exn_cls e with
  | RequestException | RequestValueError => true
  | _ => false
  end.

(** [isinstance(e, ValueError)] *)
Definition is_ValueError (e : exn) : bool :=
  match exn_cls e with
  | ValueError | RequestValueError => true
  | _ => false
  end.

Inductive outcome (A : Type) : Type :=
| Ok (a : A)
| Raise (e : exn).
Arguments Ok {A} a.
Arguments Raise {A} e.

Definition obind {A B} (o : outcome A) (k : A -> outcome B) : outcome B :=
  match o with
  | Ok a => k a
  | Raise e => Raise e
  end.

Declare Scope outcome_scope.
Delimit Scope outcome_scope with outcome.
Notation "'let*' x ':=' o 'in' k" := (obind o (fun x => k))
  (at level 10, x name, o at level 100, k at level 200) : outcome_scope.

(* ================================================================== *)
(** ** Dates and times *)

(** The [tzinfo] of a [datetime]: none (naive), [timezone.utc], or the fixed
    offset (seconds east of UTC) that [astimezone()] attaches. *)
Inductive tzinfo : Type :=
| Naive
| UTC
| LocalTz (utcoffset : Z).

(** A [datetime], held as the microseconds between the epoch and its instant
    (for a naive one: its wall clock read as UTC) and its [tzinfo]. *)
Record datetime : Type := Datetime { dt_micros : Z; dt_tz : tzinfo }.

Module PyTime.

Definition US_PER_SECOND : Z := 1000000.

(** 0001-01-01T00:00:00 and 9999-12-31T23:59:59.999999, in microseconds
    since the epoch: [datetime.min] and [datetime.max]. *)
Definition MIN_US : Z := -62135596800 * US_PER_SECOND.
Definition MAX_US : Z := 253402300799 * US_PER_SECOND + 999999.

Definition in_range (us : Z) : bool := (MIN_US <=? us) && (us <=? MAX_US).

(** [int(td.total_seconds())] for a [timedelta] of [us] microseconds.
    [total_seconds] is the true division of [us] by [10**6], rounded to the
    nearest binary64 number (ties to even); [int] then truncates toward zero.
    Between two consecutive integers the quotient is rounded up to the upper
    one, [n], exactly when it lies within half a unit in the last place
    below [n]. *)
Definition int_total_seconds (us : Z) : Z :=
  let a := Z.abs us in
  let q := a / US_PER_SECOND in
  let r := a mod US_PER_SECOND in
  let magnitude :=
    if r =? 0 then q
    else
      let n := q + 1 in
      let k := Z.log2_up n in
      if (n * US_PER_SECOND - a) * 2 ^ (54 - k) <=? US_PER_SECOND
      then n else q in
  Z.sgn us * magnitude.

Definition is_leap (y : Z) : bool :=
  ((y mod 4 =? 0) && negb (y mod 100 =? 0)) || (y mod 400 =? 0).

Definition days_in_month (y m : Z) : Z :=
  if m =? 2 then (if is_leap y then 29 else 28)
  else if (m =? 4) || (m =? 6) || (m =? 9) || (m =? 11) then 30
  else 31.

(** Days before the first of January of year [y], counted from 0001-01-01
    ([_days_before_year]). *)
Definition days_before_year (y : Z) : Z :=
  let p := y - 1 in p * 365 + p / 4 - p / 100 + p / 400.

Fixpoint days_before_month_aux (y : Z) (m : nat) : Z :=
  match m with
  | O => 0
  | S m' => days_before_month_aux y m' + days_in_month y (Z.of_nat m)
  end.

(** Days of year [y] before the first of month [m]. *)
Definition days_before_month (y m : Z) : Z :=
  days_before_month_aux y (Z.to_nat (m - 1)).

(** The proleptic Gregorian ordinal of a date, 0001-01-01 being day 1. *)
Definition ymd2ord (y m d : Z) : Z :=
  days_before_year y + days_before_month y m + d.

(** Ordinal of 1970-01-01. *)
Definition EPOCH_ORD : Z := 719163.

(** [datetime(y, m, d)]: midnight of a calendar date, naive; a
    [ValueError] for a year outside 1..9999, a month outside 1..12 or a day
    the month does not have. *)
Definition make_date (y m d : Z) : outcome datetime :=
  if negb ((1 <=? y) && (y <=? 9999)) then
    Raise (Exn ValueError "year is out of range")
  else if negb ((1 <=? m) && (m <=? 12)) then
    Raise (Exn ValueError "month must be in 1..12")
  else if negb ((1 <=? d) && (d <=? days_in_month y m)) then
    Raise (Exn ValueError "day is out of range for month")
  else
    Ok (Datetime ((ymd2ord y m d - EPOCH_ORD) * 86400 * US_PER_SECOND) Naive).

End PyTime.

(* ================================================================== *)
(** ** Python values *)

#[warnings="-register-all"]
Inductive value : Type :=
| VNone
| VBool (b : bool)
| VInt (z : Z)
| VFloat (f : spec_float)
| VStr (s : string)
| VList (items : list value)
| VDict (items : list (string * value))
| VDatetime (d : datetime).

(** The live binding of key [k] in the items of a dict. *)
Fixpoint lookup (k : string) (items : list (string * value)) : option value :=
  match items with
  | [] => None
  | (k', v) :: rest => if String.eqb k k' then Some v else lookup k rest
  end.

(** [d[k] = v] on the items of a dict: the binding is replaced where the key
    is, and added at the end where it is not. *)
Fixpoint dict_set (k : string) (v : value) (items : list (string * value))
  : list (string * value) :=
  match items with
  | [] => [(k, v)]
  | (k', v') :: rest =>
      if String.eqb k k' then (k, v) :: rest
      else (k', v') :: dict_set k v rest
  end.

Definition float_is_zero (f : spec_float) : bool :=
  match f with
  | S754_zero _ => true
  | _ => false
  end.

(** [bool(v)] *)
Definition truthy (v : value) : bool :=
  match v with
  | VNone => false
  | VBool b => b
  | VInt z => negb (z =? 0)
  | VFloat f => negb (float_is_zero f)
  | VStr s => negb (String.eqb s EmptyString)
  | VList items => match items with [] => false | _ => true end
  | VDict items => match items with [] => false | _ => true end
  | VDatetime _ => true
  end.

(** [all(vs)] *)
Definition py_all (vs : list value) : bool := forallb truthy vs.

Definition is_str (k : string) (v : value) : bool :=
  match v with
  | VStr s => String.eqb s k
  | _ => false
  end.

(** [k in v] for a string [k]. *)
Definition py_contains (k : string) (v : value) : outcome bool :=
  match v with
  | VDict items =>
      Ok (match lookup k items with Some _ => true | None => false end)
  | VList items => Ok (existsb (is_str k) items)
  | VStr s => Ok (PyStr.contains k s)
  | _ => Raise (Exn TypeError "argument is not iterable")
  end.

(** [v[k]] for a string [k]. *)
Definition py_getitem (v : value) (k : string) : outcome value :=
  match v with
  | VDict items =>
      match lookup k items with
      | Some x => Ok x
      | None => Raise (Exn KeyError k)
      end
  | VList _ | VStr _ => Raise (Exn TypeError "indices must be integers")
  | _ => Raise (Exn TypeError "object is not subscriptable")
  end.

(** [v.get(k, default)] *)
Definition py_get (v : value) (k : string) (default : value) : outcome value :=
  match v with
  | VDict items =>
      Ok (match lookup k items with Some x => x | None => default end)
  | _ => Raise (Exn AttributeError "object has no attribute 'get'")
  end.

(** [v.get(k)] *)
Definition py_get_opt (v : value) (k : string) : outcome value :=
  py_get v k VNone.

(** [v.split("\r\n")] *)
Definition py_split_crlf (v : value) : outcome (list string) :=
  match v with
  | VStr s => Ok (PyStr.split_crlf s)
  | _ => Raise (Exn AttributeError "object has no attribute 'split'")
  end.

(** The elements a [for] loop over [v] visits. *)
Definition py_iter (v : value) : outcome (list value) :=
  match v with
  | VList items => Ok items
  | VDict items => Ok (map (fun kv => VStr (fst kv)) items)
  | VStr s => Ok (map VStr (PyStr.chars s))
  | _ => Raise (Exn TypeError "object is not iterable")
  end.

(** [f > n] for a float [f] and an integer [n]; the comparison of Python is
    exact, and false for a NaN. *)
Definition float_gt_Z (f : spec_float) (n : Z) : bool :=
  match f with
  | S754_zero _ => n <? 0
  | S754_infinity s => negb s
  | S754_nan => false
  | S754_finite s m e =>
      let z := if s then Z.neg m else Z.pos m in
      if 0 <=? e then n <? z * 2 ^ e
      else n * 2 ^ (- e) <? z
  end.

(** [v > n] for an integer constant [n]. *)
Definition py_gt_int (v : value) (n : Z) : outcome bool :=
  match v with
  | VInt z => Ok (n <? z)
  | VBool b => Ok (n <? (if b then 1 else 0))
  | VFloat f => Ok (float_gt_Z f n)
  | _ => Raise (Exn TypeError "'>' not supported between these instances")
  end.

(** [x if present else None] *)
Definition opt_str (o : option string) : value :=
  match o with
  | Some s => VStr s
  | None => VNone
  end.

(* ================================================================== *)
(** ** The world outside the client *)

(** What the client reads from its environment.
    - [http_get url timeout] is the result of
      [requests.get(url, timeout=timeout)], [raise_for_status()] and
      [json()] taken together: the decoded body, or the exception one of
      the three raised;
    - [format_other v] is the text an f-string gives a value that is
      neither an [int], a [str], a [bool] nor [None];
    - [float_timestamp f] is the number of microseconds that
      [datetime.fromtimestamp] reads in a float (rounded half to even), or
      the exception it raises (a NaN, an infinity);
    - [local_utcoffset us] is the offset of the system's time zone, in
      seconds east of UTC, at the instant [us]. *)
Record World : Type := {
  http_get : string -> option Z -> outcome value;
  format_other : value -> string;
  float_timestamp : spec_float -> outcome Z;
  local_utcoffset : Z -> Z
}.

(** The effects of an operation, in the order they happen. *)
Inductive event : Type :=
| EvGet (url : string) (timeout : option Z)
| EvPrint (line : string).

Definition trace : Type := list event.

Definition is_get (ev : event) : bool :=
  match ev with
  | EvGet _ _ => true
  | EvPrint _ => false
  end.

(** The requests an operation has sent. *)
Definition network_calls (t : trace) : list event := filter is_get t.

(** The lines an operation has printed. *)
Definition printed (t : trace) : list event :=
  filter (fun ev => negb (is_get ev)) t.

(** A computation that may send requests and print, and ends with a value or
    an exception. *)
Definition M (A : Type) : Type := trace -> outcome A * trace.

Definition ret {A} (a : A) : M A := fun t => (Ok a, t).

Definition raise {A} (e : exn) : M A := fun t => (Raise e, t).

Definition bind {A B} (m : M A) (k : A -> M B) : M B :=
  fun t =>
    match m t with
    | (Ok a, t') => k a t'
    | (Raise e, t') => (Raise e, t')
    end.

(** [try: m except ... as e: handler e] *)
Definition try_except {A} (m : M A) (handler : exn -> M A) : M A :=
  fun t =>
    match m t with
    | (Ok a, t') => (Ok a, t')
    | (Raise e, t') => handler e t'
    end.

Definition lift {A} (o : outcome A) : M A := fun t => (o, t).

(** [print(line)] *)
Definition print (line : string) : M unit :=
  fun t => (Ok tt, (t ++ [EvPrint line])%list).

Declare Scope M_scope.
Delimit Scope M_scope with M.
Notation "x <- m ;; k" := (bind m (fun x => k))
  (at level 61, m at next level, right associativity) : M_scope.
Notation "m ;; k" := (bind m (fun _ => k))
  (at level 61, right associativity) : M_scope.

(** The result and the trace of an operation started with nothing sent and
    nothing printed. *)
Definition run {A} (m : M A) : outcome A * trace := m [].

(* ================================================================== *)
(** ** The client *)

(** [datetime.strptime(s, "%Y-%m-%d")].  The format is matched from the
    left as the regular expression of [_strptime] does: four digits, a dash,
    a month ([1[0-2]], [0[1-9]] or [[1-9]], the first that is followed by a
    dash), a dash, a day ([3[0-1]], [[1-2]\d], [0[1-9]], [[1-9]] or a
    space and [[1-9]], the first that fits); anything left over, or a date
    the calendar does not have, is a [ValueError]. *)
Module Strptime.

Import PyStr.

Definition no_match {A} : outcome A :=
  Raise (Exn ValueError "time data does not match format '%Y-%m-%d'").

Definition in_digits (lo hi : Z) (c : ascii) : bool :=
  is_digit c && (lo <=? digit_val c) && (digit_val c <=? hi).

(** The day and what follows it. *)
Definition read_day (s : string) : option (Z * string) :=
  match s with
  | EmptyString => None
  | String a r =>
      let two :=
        match r with
        | String b r' =>
            if Ascii.eqb a "3" && in_digits 0 1 b then Some (30 + digit_val b, r')
            else if in_digits 1 2 a && is_digit b
                 then Some (10 * digit_val a + digit_val b, r')
            else if Ascii.eqb a "0" && in_digits 1 9 b then Some (digit_val b, r')
            else None
        | EmptyString => None
        end in
      match two with
      | Some x => Some x
      | None =>
          if in_digits 1 9 a then Some (digit_val a, r)
          else
            match r with
            | String b r' =>
                if Ascii.eqb a " " && in_digits 1 9 b then Some (digit_val b, r')
                else None
            | EmptyString => None
            end
      end
  end.

(** The month and what follows the dash after it. *)
Definition read_month_dash (s : string) : option (Z * string) :=
  match s with
  | String a (String b (String c r)) =>
      if Ascii.eqb a "1" && in_digits 0 2 b && Ascii.eqb c "-"
      then Some (10 + digit_val b, r)
      else if Ascii.eqb a "0" && in_digits 1 9 b && Ascii.eqb c "-"
      then Some (digit_val b, r)
      else if in_digits 1 9 a && Ascii.eqb b "-"
      then Some (digit_val a, String c r)
      else None
  | String a (String b r) =>
      if in_digits 1 9 a && Ascii.eqb b "-" then Some (digit_val a, r)
      else None
  | _ => None
  end.

(** The year and what follows the dash after it. *)
Definition read_year_dash (s : string) : option (Z * string) :=
  match s with
  | String a (String b (String c (String d (String e r)))) =>
      if is_digit a && is_digit b && is_digit c && is_digit d
         && Ascii.eqb e "-"
      then Some (1000 * digit_val a + 100 * digit_val b
                 + 10 * digit_val c + digit_val d, r)
      else None
  | _ => None
  end.

Definition strptime_ymd (s : string) : outcome datetime :=
  match read_year_dash s with
  | None => no_match
  | Some (y, s1) =>
      match read_month_dash s1 with
      | None => no_match
      | Some (m, s2) =>
          match read_day s2 with
          | None => no_match
          | Some (d, EmptyString) => PyTime.make_date y m d
          | Some (_, String _ _) =>
              Raise (Exn ValueError "unconverted data remains")
          end
      end
  end.

End Strptime.

(** [datetime.strptime(v, "%Y-%m-%d")] *)
Definition py_strptime_ymd (v : value) : outcome datetime :=
  match v with
  | VStr s => Strptime.strptime_ymd s
  | _ => Raise (Exn TypeError "strptime() argument 1 must be str")
  end.

(** [b - a] for two [datetime]s: the microseconds of the [timedelta]. *)
Definition datetime_sub (b a : datetime) : outcome Z :=
  match dt_tz b, dt_tz a with
  | Naive, Naive => Ok (dt_micros b - dt_micros a)
  | Naive, _ | _, Naive =>
      Raise (Exn TypeError
               "can't subtract offset-naive and offset-aware datetimes")
  | _, _ => Ok (dt_micros b - dt_micros a)
  end.

(** The loop [acc = []; for p in items: acc.append(body(p))], started with
    the list [acc] built so far. *)
Fixpoint collect (body : value -> outcome value) (items : list value)
    (acc : list value) : outcome (list value) :=
  match items with
  | [] => Ok acc
  | p :: rest =>
      match body p with
      | Raise e => Raise e
      | Ok r => collect body rest (acc ++ [r])%list
      end
  end.

Record N2YOClient : Type := {
  api_key : value;
  base_url : string
}.

(** [N2YOClient.__init__] *)
Definition N2YOClient_init (key : value) : outcome N2YOClient :=
  if negb (truthy key) then Raise (Exn ValueError "API key is required.")
  else Ok {| api_key := key;
             base_url := "https://api.n2yo.com/rest/v1/satellite" |}.

(** The sign that starts the warnings of the pass and overhead operations. *)
Definition WARNING_SIGN : string := "⚠️".

Section Client.

Variable W : World.

(** The text of [v] inside an f-string. *)
Definition py_format (v : value) : string :=
  match v with
  | VInt z => PyStr.of_Z z
  | VStr s => s
  | VNone => "None"
  | VBool true => "True"
  | VBool false => "False"
  | _ => format_other W v
  end.

(** [requests.get(url, timeout=timeout)], [raise_for_status()], [json()]. *)
Definition request_json (url : string) (timeout : option Z) : M value :=
  fun t => (http_get W url timeout, (t ++ [EvGet url timeout])%list).

(** [datetime.fromtimestamp(v, tz=timezone.utc)].  A moment outside the
    years 1..9999 is refused (with a [ValueError]; far enough out CPython
    reports an [OverflowError] or an [OSError] instead, none of which is a
    [RequestException]). *)
Definition fromtimestamp_utc (v : value) : outcome datetime :=
  let of_micros (us : Z) : outcome datetime :=
    if PyTime.in_range us then Ok (Datetime us UTC)
    else Raise (Exn ValueError "year is out of range") in
  match v with
  | VInt z => of_micros (z * PyTime.US_PER_SECOND)
  | VBool b => of_micros ((if b then 1 else 0) * PyTime.US_PER_SECOND)
  | VFloat f =>
      match float_timestamp W f with
      | Ok us => of_micros us
      | Raise e => Raise e
      end
  | _ => Raise (Exn TypeError "an integer is required")
  end.

(** [d.astimezone()] for an aware [d] (the client calls it on nothing
    else): the same instant, read in the system's time zone. *)
Definition astimezone (d : datetime) : outcome datetime :=
  let off := local_utcoffset W (dt_micros d) in
  if PyTime.in_range (dt_micros d + off * PyTime.US_PER_SECOND)
  then Ok (Datetime (dt_micros d) (LocalTz off))
  else Raise (Exn OverflowError "date value out of range").

Local Open Scope outcome_scope.

(** *** [get_tle] *)

(** The body of the [try] of [get_tle], after the request. *)
Definition tle_of_payload (data : value) : outcome value :=
  let* has := py_contains "tle" data in
  if negb has then
    Raise (Exn ValueError
             "Invalid response: 'tle' field missing from API response.")
  else
    let* raw := py_getitem data "tle" in
    let* segs := py_split_crlf raw in
    let tle_lines :=
      filter (fun line => truthy (VStr (PyStr.strip line))) segs in
    let* info := py_getitem data "info" in
    let* satid := py_getitem info "satid" in
    let* info := py_getitem data "info" in
    let* satname := py_getitem info "satname" in
    let* info := py_getitem data "info" in
    let* transactions := py_getitem info "transactionscount" in
    Ok (VDict
          [("satid", satid);
           ("satname", satname);
           ("transactions", transactions);
           ("tle",
            VDict
              [("line1",
                if (0 <? List.length tle_lines)%nat
                then opt_str (nth_error tle_lines 0) else VNone);
               ("line2",
                if (1 <? List.length tle_lines)%nat
                then opt_str (nth_error tle_lines 1) else VNone)])]).

(** The two [except] clauses of [get_tle] and [get_positions]: the
    exception is printed and raised again. *)
Definition log_and_reraise {A} (e : exn) : M A :=
  (if is_RequestException e then
     print ("HTTP Request failed: " ++ exn_msg e) ;; raise e
   else if is_ValueError e then
     print ("Data error: " ++ exn_msg e) ;; raise e
   else raise e)%M.

(** The [except] clause of the pass and overhead operations: a failed request
    is printed and [None] is returned. *)
Definition warn_and_return_none (e : exn) : M value :=
  (if is_RequestException e then
     print (WARNING_SIGN ++ " API request failed: " ++ exn_msg e) ;;
     ret VNone
   else raise e)%M.

(** [f"{self.base_url}/tle/{sat_id}&apiKey={self.api_key}"] *)
Definition tle_url (self : N2YOClient) (sat_id : value) : string :=
  base_url self ++ "/tle/" ++ py_format sat_id
  ++ "&apiKey=" ++ py_format (api_key self).

Definition get_tle (self : N2YOClient) (sat_id : value) : M value :=
  if negb (truthy sat_id) then raise (Exn ValueError "sat_id is required.")
  else
    let url := tle_url self sat_id in
    try_except
      (data <- request_json url None ;; lift (tle_of_payload data))%M
      log_and_reraise.

(** *** [get_visual_passes] *)

(** [data.get("info", {}).get("satname", "Unknown")] *)
Definition satname_or_unknown (data : value) : outcome value :=
  let* info := py_get data "info" (VDict []) in
  py_get info "satname" (VStr "Unknown").

(** ["passes" not in data or not data["passes"]], for the key [k]. *)
Definition missing_or_empty (k : string) (data : value) : outcome bool :=
  let* has := py_contains k data in
  if negb has then Ok true
  else
    let* v := py_getitem data k in
    Ok (negb (truthy v)).

(** The body of the loop of [get_visual_passes]. *)
Definition visual_pass_record (convert_to_local : bool) (p : value)
  : outcome value :=
  let* ts := py_getitem p "startUTC" in
  let* start_time := fromtimestamp_utc ts in
  let* te := py_getitem p "endUTC" in
  let* end_time := fromtimestamp_utc te in
  let* start_time :=
    if convert_to_local then astimezone start_time else Ok start_time in
  let* end_time :=
    if convert_to_local then astimezone end_time else Ok end_time in
  let* duration := py_getitem p "duration" in
  let* start_direction := py_getitem p "startAzCompass" in
  let* end_direction := py_getitem p "endAzCompass" in
  let* max_el := py_getitem p "maxEl" in
  let* mag := py_getitem p "mag" in
  Ok (VDict
        [("start_time", VDatetime start_time);
         ("end_time", VDatetime end_time);
         ("duration_sec", duration);
         ("start_direction", start_direction);
         ("end_direction", end_direction);
         ("max_elevation_deg", max_el);
         ("brightness_mag", mag)]).

(** The [try] of the two pass operations after the request; [record] is
    the body of the loop. *)
Definition passes_of_payload (record : value -> outcome value)
    (data : value) : outcome value :=
  let* none := missing_or_empty "passes" data in
  if none then
    let* name := satname_or_unknown data in
    Ok (VDict [("satellite", name); ("passes", VList [])])
  else
    let* ps := py_getitem data "passes" in
    let* items := py_iter ps in
    let* passes := collect record items [] in
    let* info := py_getitem data "info" in
    let* name := py_getitem info "satname" in
    Ok (VDict [("satellite", name); ("passes", VList passes)]).

(** The URL of the two pass operations; [endpoint] is ["visualpasses"] or
    ["radiopasses"] and [threshold] the minimum visibility or elevation. *)
Definition passes_url (self : N2YOClient) (endpoint : string)
    (sat_id lat lng alt days threshold : value) : string :=
  base_url self ++ "/" ++ endpoint ++ "/"
  ++ py_format sat_id ++ "/" ++ py_format lat ++ "/" ++ py_format lng
  ++ "/" ++ py_format alt ++ "/" ++ py_format days
  ++ "/" ++ py_format threshold
  ++ "/&apiKey=" ++ py_format (api_key self).

Definition get_visual_passes (self : N2YOClient)
    (sat_id lat lng alt days min_visibility : value)
    (convert_to_local : bool) : M value :=
  let url :=
    passes_url self "visualpasses" sat_id lat lng alt days min_visibility in
  try_except
    (data <- request_json url (Some 10) ;;
     lift (passes_of_payload (visual_pass_record convert_to_local) data))%M
    warn_and_return_none.

(** *** [get_positions] *)

(** The body of the loop of [get_positions]. *)
Definition position_record (p : value) : outcome value :=
  let* latitude := py_getitem p "satlatitude" in
  let* longitude := py_getitem p "satlongitude" in
  let* altitude := py_get_opt p "sataltitude" in
  let* azimuth := py_getitem p "azimuth" in
  let* elevation := py_getitem p "elevation" in
  let* ra := py_getitem p "ra" in
  let* dec := py_getitem p "dec" in
  let* timestamp := py_getitem p "timestamp" in
  Ok (VDict
        [("latitude", latitude);
         ("longitude", longitude);
         ("altitude", altitude);
         ("azimuth", azimuth);
         ("elevation", elevation);
         ("ra", ra);
         ("dec", dec);
         ("timestamp", timestamp)]).

(** The body of the [try] of [get_positions], after the request. *)
Definition positions_of_payload (data : value) : outcome value :=
  let* has := py_contains "positions" data in
  if negb has then
    Raise (Exn ValueError
             "Invalid response: 'positions' field missing from API response.")
  else
    let* ps := py_getitem data "positions" in
    let* items := py_iter ps in
    let* positions := collect position_record items [] in
    let* info := py_getitem data "info" in
    let* satid := py_getitem info "satid" in
    let* info := py_getitem data "info" in
    let* satname := py_getitem info "satname" in
    let* info := py_getitem data "info" in
    let* transactions := py_getitem info "transactionscount" in
    Ok (VDict
          [("satid", satid);
           ("satname", satname);
           ("transactions", transactions);
           ("positions", VList positions)]).

Definition positions_url (self : N2YOClient)
    (sat_id observer_lat observer_lng observer_alt seconds : value)
  : string :=
  base_url self ++ "/positions/"
  ++ py_format sat_id ++ "/" ++ py_format observer_lat
  ++ "/" ++ py_format observer_lng ++ "/" ++ py_format observer_alt
  ++ "/" ++ py_format seconds
  ++ "/&apiKey=" ++ py_format (api_key self).

Definition get_positions (self : N2YOClient)
    (sat_id observer_lat observer_lng observer_alt seconds : value)
  : M value :=
  if negb (py_all [sat_id; observer_lat; observer_lng]) then
    raise (Exn ValueError "Missing required parameters (sat_id, lat, lng).")
  else
    match py_gt_int seconds 300 with
    | Raise e => raise e
    | Ok true =>
        raise (Exn ValueError
                 "Seconds parameter cannot exceed 300 (per API limit).")
    | Ok false =>
        let url :=
          positions_url self sat_id observer_lat observer_lng observer_alt
            seconds in
        try_except
          (data <- request_json url None ;;
           lift (positions_of_payload data))%M
          log_and_reraise
    end.

(** *** [get_radio_passes] *)

(** The body of the loop of [get_radio_passes]. *)
Definition radio_pass_record (convert_to_local : bool) (p : value)
  : outcome value :=
  let* ts := py_getitem p "startUTC" in
  let* start_time := fromtimestamp_utc ts in
  let* tm := py_getitem p "maxUTC" in
  let* max_time := fromtimestamp_utc tm in
  let* te := py_getitem p "endUTC" in
  let* end_time := fromtimestamp_utc te in
  let* start_time :=
    if convert_to_local then astimezone start_time else Ok start_time in
  let* max_time :=
    if convert_to_local then astimezone max_time else Ok max_time in
  let* end_time :=
    if convert_to_local then astimezone end_time else Ok end_time in
  let* delta := datetime_sub end_time start_time in
  let* start_direction := py_getitem p "startAzCompass" in
  let* end_direction := py_getitem p "endAzCompass" in
  let* max_el := py_getitem p "maxEl" in
  Ok (VDict
        [("start_time", VDatetime start_time);
         ("max_time", VDatetime max_time);
         ("end_time", VDatetime end_time);
         ("duration_sec", VInt (PyTime.int_total_seconds delta));
         ("start_direction", start_direction);
         ("end_direction", end_direction);
         ("max_elevation_deg", max_el)]).

Definition get_radio_passes (self : N2YOClient)
    (sat_id lat lng alt days min_elevation : value)
    (convert_to_local : bool) : M value :=
  let url :=
    passes_url self "radiopasses" sat_id lat lng alt days min_elevation in
  try_except
    (data <- request_json url (Some 10) ;;
     lift (passes_of_payload (radio_pass_record convert_to_local) data))%M
    warn_and_return_none.

(** *** [get_objects_above] *)

(** The inner [try] of the loop: the launch date, or [None] when anything
    at all goes wrong in reading it. *)
Definition launch_date_of (sat : value) : value :=
  match (let* raw := py_getitem sat "launchDate" in py_strptime_ymd raw) with
  | Ok d => VDatetime d
  | Raise _ => VNone
  end.

(** The body of the loop of [get_objects_above]. *)
Definition satellite_record (sat : value) : outcome value :=
  let launch_date := launch_date_of sat in
  let* satid := py_getitem sat "satid" in
  let* satname := py_getitem sat "satname" in
  let* designator := py_getitem sat "intDesignator" in
  let* satlat := py_getitem sat "satlat" in
  let* satlng := py_getitem sat "satlng" in
  let* satalt := py_getitem sat "satalt" in
  Ok (VDict
        [("id", satid);
         ("name", satname);
         ("intl_designator", designator);
         ("launch_date", launch_date);
         ("latitude", satlat);
         ("longitude", satlng);
         ("altitude_km", satalt)]).

(** The body of the [try] of [get_objects_above], after the request. *)
Definition above_of_payload (data : value) : outcome value :=
  let* none := missing_or_empty "above" data in
  if none then
    let* info := py_get data "info" (VDict []) in
    let* category := py_get info "category" (VStr "Unknown") in
    Ok (VDict
          [("category", category);
           ("count", VInt 0);
           ("satellites", VList [])])
  else
    let* sats := py_getitem data "above" in
    let* items := py_iter sats in
    let* satellites := collect satellite_record items [] in
    let* info := py_getitem data "info" in
    let* category := py_getitem info "category" in
    let* info := py_getitem data "info" in
    let* satcount := py_getitem info "satcount" in
    Ok (VDict
          [("category", category);
           ("count", satcount);
           ("satellites", VList satellites)]).

Definition above_url (self : N2YOClient)
    (lat lng alt search_radius category_id : value) : string :=
  base_url self ++ "/above/"
  ++ py_format lat ++ "/" ++ py_format lng ++ "/" ++ py_format alt
  ++ "/" ++ py_format search_radius ++ "/" ++ py_format category_id
  ++ "/&apiKey=" ++ py_format (api_key self).

Definition get_objects_above (self : N2YOClient)
    (lat lng alt search_radius category_id : value) : M value :=
  let url := above_url self lat lng alt search_radius category_id in
  try_except
    (data <- request_json url (Some 15) ;; lift (above_of_payload data))%M
    warn_and_return_none.

End Client.

(* ================================================================== *)
(** ** The shape of the payloads *)

Definition has_key (k : string) (p : value) : bool :=
  match p with
  | VDict items =>
      match lookup k items with Some _ => true | None => false end
  | _ => false
  end.

(** [p] is an object that has every key of [ks]. *)
Definition has_keys (ks : list string) (p : value) : bool :=
  match p with
  | VDict _ => forallb (fun k => has_key k p) ks
  | _ => false
  end.

Definition int_field (k : string) (p : value) : option Z :=
  match p with
  | VDict items =>
      match lookup k items with
      | Some (VInt z) => Some z
      | _ => None
      end
  | _ => None
  end.

(** An epoch second that [datetime] can hold: it falls in the years
    1..9999, and so does its reading in the local time zone when the caller
    asks for local times. *)
Definition timestamp_ok (W : World) (convert_to_local : bool) (z : Z) : bool :=
  let us := z * PyTime.US_PER_SECOND in
  PyTime.in_range us
  && (negb convert_to_local
      || PyTime.in_range (us + local_utcoffset W us * PyTime.US_PER_SECOND)).

Definition timestamp_field_ok (W : World) (convert_to_local : bool)
    (k : string) (p : value) : bool :=
  match int_field k p with
  | Some z => timestamp_ok W convert_to_local z
  | None => false
  end.

(** One pass of a [visualpasses] answer. *)
Definition wf_visual_pass (W : World) (convert_to_local : bool) (p : value)
  : bool :=
  timestamp_field_ok W convert_to_local "startUTC" p
  && timestamp_field_ok W convert_to_local "endUTC" p
  && has_keys ["duration"; "startAzCompass"; "endAzCompass"; "maxEl"; "mag"] p.

(** One pass of a [radiopasses] answer. *)
Definition wf_radio_pass (W : World) (convert_to_local : bool) (p : value)
  : bool :=
  timestamp_field_ok W convert_to_local "startUTC" p
  && timestamp_field_ok W convert_to_local "maxUTC" p
  && timestamp_field_ok W convert_to_local "endUTC" p
  && has_keys ["startAzCompass"; "endAzCompass"; "maxEl"] p.

(** One point of a [positions] answer; the altitude may be left out. *)
Definition wf_position (p : value) : bool :=
  has_keys ["satlatitude"; "satlongitude"; "azimuth"; "elevation"; "ra";
            "dec"; "timestamp"] p.

(** One satellite of an [above] answer; the launch date may be left out. *)
Definition wf_satellite (p : value) : bool :=
  has_keys ["satid"; "satname"; "intDesignator"; "satlat"; "satlng";
            "satalt"] p.

(** The launch date of [sat] is missing, or [strptime] refuses it. *)
Definition launch_date_unreadable (sat : value) : Prop :=
  match sat with
  | VDict items =>
      match lookup "launchDate" items with
      | None => True
      | Some v => exists e, py_strptime_ymd v = Raise e
      end
  | _ => True
  end.

(** The first two of [lines] as [line1] and [line2], [None] standing for a
    line that is not there. *)
Definition first_two (lines : list string) : value * value :=
  match lines with
  | [] => (VNone, VNone)
  | [a] => (VStr a, VNone)
  | a :: b :: _ => (VStr a, VStr b)
  end.

Definition nonblank (s : string) : bool := negb (PyStr.all_space s).

(** The satellite name of a payload: [info.satname] when the payload has
    it, ["Unknown"] otherwise. *)
Definition payload_satname_or_unknown (d : list (string * value)) : value :=
  match lookup "info" d with
  | Some (VDict info) =>
      match lookup "satname" info with
      | Some name => name
      | None => VStr "Unknown"
      end
  | _ => VStr "Unknown"
  end.

(** The [datetime] the pass operations make of the epoch second [z]: in UTC,
    or in the local zone when the caller asks for local times. *)
Definition stamp (W : World) (convert_to_local : bool) (z : Z) : datetime :=
  let us := z * PyTime.US_PER_SECOND in
  Datetime us (if convert_to_local then LocalTz (local_utcoffset W us) else UTC).

(** The payload element [p] with its field [k] set to [v]. *)
Definition with_field (k : string) (v : value) (p : value) : value :=
  match p with
  | VDict items => VDict (dict_set k v items)
  | _ => p
  end.

(** The segment [s] does not contain the separator. *)
Definition no_crlf (s : string) : Prop := PyStr.contains PyStr.CRLF s = false.

(** [rs] has one element for each element of [ps], at the same position,
    and it is what [body] makes of that element. *)
Definition pointwise (body : value -> outcome value) (ps rs : list value)
  : Prop :=
  List.length rs = List.length ps
  /\ forall i p, nth_error ps i = Some p ->
       exists r, nth_error rs i = Some r /\ body p = Ok r.

(** *** The operations that return a list *)

Inductive operation : Type :=
| VisualPasses (sat_id lat lng alt days min_visibility : value)
    (convert_to_local : bool)
| RadioPasses (sat_id lat lng alt days min_elevation : value)
    (convert_to_local : bool)
| Positions (sat_id observer_lat observer_lng observer_alt seconds : value)
| ObjectsAbove (lat lng alt search_radius category_id : value).

Definition call (W : World) (self : N2YOClient) (op : operation) : M value :=
  match op with
  | VisualPasses sat_id lat lng alt days min_visibility conv =>
      get_visual_passes W self sat_id lat lng alt days min_visibility conv
  | RadioPasses sat_id lat lng alt days min_elevation conv =>
      get_radio_passes W self sat_id lat lng alt days min_elevation conv
  | Positions sat_id lat lng alt seconds =>
      get_positions W self sat_id lat lng alt seconds
  | ObjectsAbove lat lng alt search_radius category_id =>
      get_objects_above W self lat lng alt search_radius category_id
  end.

(** The key of the list in the payload, and in the result. *)
Definition payload_list_key (op : operation) : string :=
  match op with
  | VisualPasses _ _ _ _ _ _ _ | RadioPasses _ _ _ _ _ _ _ => "passes"
  | Positions _ _ _ _ _ => "positions"
  | ObjectsAbove _ _ _ _ _ => "above"
  end.

Definition result_list_key (op : operation) : string :=
  match op with
  | VisualPasses _ _ _ _ _ _ _ | RadioPasses _ _ _ _ _ _ _ => "passes"
  | Positions _ _ _ _ _ => "positions"
  | ObjectsAbove _ _ _ _ _ => "satellites"
  end.

(** The body of the loop of each operation. *)
Definition record_of (W : World) (op : operation) : value -> outcome value :=
  match op with
  | VisualPasses _ _ _ _ _ _ conv => visual_pass_record W conv
  | RadioPasses _ _ _ _ _ _ conv => radio_pass_record W conv
  | Positions _ _ _ _ _ => position_record
  | ObjectsAbove _ _ _ _ _ => satellite_record
  end.

Definition wf_element (W : World) (op : operation) : value -> bool :=
  match op with
  | VisualPasses _ _ _ _ _ _ conv => wf_visual_pass W conv
  | RadioPasses _ _ _ _ _ _ conv => wf_radio_pass W conv
  | Positions _ _ _ _ _ => wf_position
  | ObjectsAbove _ _ _ _ _ => wf_satellite
  end.

(** The keys each operation reads in the [info] object of the payload. *)
Definition info_keys (op : operation) : list string :=
  match op with
  | VisualPasses _ _ _ _ _ _ _ | RadioPasses _ _ _ _ _ _ _ => ["satname"]
  | Positions _ _ _ _ _ => ["satid"; "satname"; "transactionscount"]
  | ObjectsAbove _ _ _ _ _ => ["category"; "satcount"]
  end.

(** The arguments pass the checks made before the request. *)
Definition admissible (op : operation) : bool :=
  match op with
  | Positions sat_id lat lng _ seconds =>
      py_all [sat_id; lat; lng]
      && match py_gt_int seconds 300 with Ok false => true | _ => false end
  | _ => true
  end.

(* ================================================================== *)
(** ** Worlds and payloads for the examples *)

(** A service that gives every request the same answer, on a machine one
    hour east of UTC. *)
Definition canned_world (reply : outcome value) : World := {|
  http_get := fun _ _ => reply;
  format_other :=
    fun v =>
      match v with
      | VFloat (S754_zero false) => "0.0"
      | VFloat (S754_zero true) => "-0.0"
      | _ => "<object>"
      end;
  float_timestamp :=
    fun _ => Raise (Exn TypeError "no float timestamps in the examples");
  local_utcoffset := fun _ => 3600
|}.

Definition demo_client : N2YOClient := {|
  api_key := VStr "KEY";
  base_url := "https://api.n2yo.com/rest/v1/satellite"
|}.

Definition iss_info : value :=
  VDict [("satid", VInt 25544); ("satname", VStr "SPACE STATION");
         ("transactionscount", VInt 4); ("category", VStr "ANY");
         ("satcount", VInt 7)].

Definition connection_error : exn := Exn RequestException "connection refused".

Definition tle_payload : value :=
  VDict [("info", iss_info);
         ("tle", VStr ("LINE1" ++ PyStr.CRLF ++ "LINE2" ++ PyStr.CRLF))].

Definition position_at (timestamp : Z) : value :=
  VDict [("satlatitude", VInt 12); ("satlongitude", VInt 34);
         ("sataltitude", VInt 420); ("azimuth", VInt 100);
         ("elevation", VInt 5); ("ra", VInt 1); ("dec", VInt 2);
         ("timestamp", VInt timestamp)].

Definition position_point : value := position_at 1521354418.

(** Three points, the later one first and the other one twice. *)
Definition unordered_positions_payload : value :=
  VDict [("info", iss_info);
         ("positions", VList [position_at 30; position_at 10; position_at 10])].

Definition positions_payload : value :=
  VDict [("info", iss_info); ("positions", VList [position_point])].

Definition empty_passes_payload : value :=
  VDict [("info", iss_info); ("passes", VList [])].

Definition radio_pass : value :=
  VDict [("startAz", VInt 311); ("startAzCompass", VStr "NW");
         ("startUTC", VInt 1000); ("maxAz", VInt 37);
         ("maxAzCompass", VStr "NE"); ("maxEl", VInt 52);
         ("maxUTC", VInt 1045); ("endAz", VInt 118);
         ("endAzCompass", VStr "ESE"); ("endUTC", VInt 1090);
         ("duration", VInt 999)].

Definition radio_payload : value :=
  VDict [("info", iss_info); ("passes", VList [radio_pass])].

Definition satellite (satid : Z) (name : string) (fields : list (string * value))
  : value :=
  VDict ([("satid", VInt satid); ("satname", VStr name);
          ("intDesignator", VStr "1998-067A")] ++ fields
         ++ [("satlat", VInt 12); ("satlng", VInt 34); ("satalt", VInt 420)])%list.

Definition above_payload : value :=
  VDict [("info", iss_info);
         ("above",
          VList [satellite 1 "WRONG DATE" [("launchDate", VStr "2021-13-40")];
                 satellite 2 "NO DATE" [];
                 satellite 3 "ZARYA" [("launchDate", VStr "1998-11-20")]])].

Definition visual_pass : value :=
  VDict [("startAz", VInt 307); ("startAzCompass", VStr "NW");
         ("startEl", VInt 13); ("startUTC", VInt 1521368025);
         ("maxAz", VInt 225); ("maxAzCompass", VStr "SW");
         ("maxEl", VInt 78); ("maxUTC", VInt 1521368345);
         ("endAz", VInt 132); ("endAzCompass", VStr "SE");
         ("endEl", VInt 0); ("endUTC", VInt 1521368660);
         ("mag", VInt (-2)); ("duration", VInt 485)].

(* ================================================================== *)
(** ** Every call of the client *)

(** One call of the client: [get_tle] or one of the four operations that
    return a list. *)
Inductive api_call : Type :=
| CallTle (sat_id : value)
| CallList (op : operation).

Definition invoke (W : World) (self : N2YOClient) (c : api_call) : M value :=
  match c with
  | CallTle sat_id => get_tle W self sat_id
  | CallList op => call W self op
  end.

(** The arguments are ones the client lets through to the request. *)
Definition passes_checks (c : api_call) : bool :=
  match c with
  | CallTle sat_id => truthy sat_id
  | CallList op => admissible op
  end.

(** The request each call sends: its URL and its timeout in seconds. *)
Definition request_of (W : World) (self : N2YOClient) (c : api_call) : event :=
  match c with
  | CallTle sat_id => EvGet (tle_url W self sat_id) None
  | CallList (VisualPasses sat_id lat lng alt days min_visibility _) =>
      EvGet (passes_url W self "visualpasses" sat_id lat lng alt days
               min_visibility) (Some 10)
  | CallList (RadioPasses sat_id lat lng alt days min_elevation _) =>
      EvGet (passes_url W self "radiopasses" sat_id lat lng alt days
               min_elevation) (Some 10)
  | CallList (Positions sat_id lat lng alt seconds) =>
      EvGet (positions_url W self sat_id lat lng alt seconds) None
  | CallList (ObjectsAbove lat lng alt search_radius category_id) =>
      EvGet (above_url W self lat lng alt search_radius category_id) (Some 15)
  end.

(** The calls whose [except] clause turns a failed request into [None]. *)
Definition yields_none_on_failure (op : operation) : bool :=
  match op with
  | Positions _ _ _ _ _ => false
  | _ => true
  end.

(** What [get_tle] and [get_positions] print for the exception [e] before
    they raise it again. *)
Definition logged_lines (e : exn) : list event :=
  if is_RequestException e then
    [EvPrint ("HTTP Request failed: " ++ exn_msg e)]
  else if is_ValueError e then [EvPrint ("Data error: " ++ exn_msg e)]
  else [].

(** The category of a payload: [info.category] when the payload has it,
    ["Unknown"] otherwise. *)
Definition payload_category_or_unknown (d : list (string * value)) : value :=
  match lookup "info" d with
  | Some (VDict info) =>
      match lookup "category" info with
      | Some category => category
      | None => VStr "Unknown"
      end
  | _ => VStr "Unknown"
  end.

(** The list is missing from the payload, or what is there is falsy
    ([null], an empty list, ...). *)
Definition nothing_listed (k : string) (d : list (string * value)) : Prop :=
  match lookup k d with
  | None => True
  | Some v => truthy v = false
  end.


(** The two values are [datetime]s of the same instant. *)
Definition same_instant (a b : outcome value) : Prop :=
  exists da db,
    a = Ok (VDatetime da) /\ b = Ok (VDatetime db)
    /\ dt_micros da = dt_micros db.

(** *** Dates written out *)

Definition digit_char (n : Z) : ascii := ascii_of_N (Z.to_N (48 + n)).

Definition two_digits (n : Z) : string :=
  String (digit_char (n / 10)) (String (digit_char (n mod 10)) EmptyString).

Definition four_digits (n : Z) : string :=
  String (digit_char (n / 1000))
    (String (digit_char (n / 100 mod 10)) (two_digits (n mod 100))).

(** [date(y, m, d).isoformat()]: the date as YYYY-MM-DD. *)
Definition iso_date (y m d : Z) : string :=
  four_digits y ++ "-" ++ two_digits m ++ "-" ++ two_digits d.

(* ================================================================== *)
(** ** The demonstration ([main.py]) *)

Module Driver.

(** [str(e)]: the message of the exception; a [KeyError] shows its key
    between quotes. *)
Definition exn_str (e : exn) : string :=
  match exn_cls e with
  | KeyError => "'" ++ exn_msg e ++ "'"
  | _ => exn_msg e
  end.

(** [len(v)] *)
Definition py_len (v : value) : outcome Z :=
  match v with
  | VList items => Ok (Z.of_nat (List.length items))
  | VDict items => Ok (Z.of_nat (List.length items))
  | VStr s => Ok (Z.of_nat (String.length s))
  | _ => Raise (Exn TypeError "object has no len()")
  end.

(** [v[:5]] (a dict refuses the slice, with a [TypeError] or a [KeyError]
    depending on the version of Python). *)
Definition py_first_five (v : value) : outcome value :=
  match v with
  | VList items => Ok (VList (firstn 5 items))
  | VStr s => Ok (VStr (substring 0 5 s))
  | _ => Raise (Exn TypeError "object is not subscriptable")
  end.

(** The loop [for p in items: body(p)]. *)
Fixpoint for_each (body : value -> M unit) (items : list value) : M unit :=
  match items with
  | [] => ret tt
  | p :: rest => bind (body p) (fun _ => for_each body rest)
  end.

(** 40.7, -74.0 and 10: the observer of the demonstration. *)
Definition observer_lat : value :=
  VFloat (S754_finite false 5728015776061850 (-47)).
Definition observer_lng : value :=
  VFloat (S754_finite true 5207287069147136 (-46)).
Definition observer_alt : value := VInt 10.

Definition ISS : value := VInt 25544.

Definition DEGREE_SIGN : string := String (ascii_of_nat 176) EmptyString.

Definition NEWLINE : string := String PyStr.LF EmptyString.

(** ["-" * 20] *)
Definition RULE : string := "--------------------".

Section Console.

Variable W : World.

(** [format(v, ".4f")] and [format(v, ".2f")]: the text of a number with
    that many decimals, or the exception that a value which is not a number
    meets. *)
Variable format_fixed : nat -> value -> outcome string.

Local Open Scope outcome_scope.
Local Open Scope M_scope.

(** [try: body except Exception as e: print(f"An error occurred while
    fetching {what}: {e}")] *)
Definition guarded (what : string) (body : M unit) : M unit :=
  try_except body
    (fun e =>
       print ("An error occurred while fetching " ++ what ++ ": " ++ exn_str e)).

(** [result and result[k]], as the condition of an [if]. *)
Definition has_results (result : value) (k : string) : outcome bool :=
  if truthy result then
    let* items := py_getitem result k in Ok (truthy items)
  else Ok false.

Definition show_tle (client : N2YOClient) : M unit :=
  iss_tle <- get_tle W client ISS ;;
  satname <- lift (py_getitem iss_tle "satname") ;;
  satid <- lift (py_getitem iss_tle "satid") ;;
  print ("Successfully fetched TLE for: " ++ py_format W satname
         ++ " (ID: " ++ py_format W satid ++ ")") ;;
  tle <- lift (py_getitem iss_tle "tle") ;;
  line1 <- lift (py_getitem tle "line1") ;;
  print ("  Line 1: " ++ py_format W line1) ;;
  tle <- lift (py_getitem iss_tle "tle") ;;
  line2 <- lift (py_getitem tle "line2") ;;
  print ("  Line 2: " ++ py_format W line2) ;;
  print RULE.

(** The line printed for one visual pass. *)
Definition pass_line (p : value) : outcome string :=
  let* start_time := py_getitem p "start_time" in
  let* start_direction := py_getitem p "start_direction" in
  let* end_time := py_getitem p "end_time" in
  let* end_direction := py_getitem p "end_direction" in
  let* duration := py_getitem p "duration_sec" in
  let* max_el := py_getitem p "max_elevation_deg" in
  Ok ("  - Start: " ++ py_format W start_time
      ++ " (" ++ py_format W start_direction ++ "), "
      ++ "End: " ++ py_format W end_time
      ++ " (" ++ py_format W end_direction ++ "), "
      ++ "Duration: " ++ py_format W duration ++ "s, "
      ++ "Max Elevation: " ++ py_format W max_el ++ DEGREE_SIGN)%string.

Definition show_visual_passes (client : N2YOClient) : M unit :=
  visual_passes <-
    get_visual_passes W client ISS observer_lat observer_lng observer_alt
      (VInt 5) (VInt 100) false ;;
  found <- lift (has_results visual_passes "passes") ;;
  (if found then
     passes <- lift (py_getitem visual_passes "passes") ;;
     n <- lift (py_len passes) ;;
     name <- lift (py_getitem visual_passes "satellite") ;;
     print ("Found " ++ PyStr.of_Z n ++ " visual passes for "
            ++ py_format W name ++ " in the next 5 days.") ;;
     passes <- lift (py_getitem visual_passes "passes") ;;
     items <- lift (py_iter passes) ;;
     for_each (fun p => line <- lift (pass_line p) ;; print line) items
   else print "No visual passes found for the given parameters.") ;;
  print RULE.

(** The line printed for one position. *)
Definition position_line (pos : value) : outcome string :=
  let* timestamp := py_getitem pos "timestamp" in
  let* latitude := py_getitem pos "latitude" in
  let* lat := format_fixed 4 latitude in
  let* longitude := py_getitem pos "longitude" in
  let* lng := format_fixed 4 longitude in
  let* altitude := py_getitem pos "altitude" in
  let* alt := format_fixed 2 altitude in
  Ok ("  - Timestamp: " ++ py_format W timestamp ++ ", Lat: " ++ lat
      ++ ", Lng: " ++ lng ++ ", Alt: " ++ alt ++ " km")%string.

(** [for x in result[k][:5]: print(line(x))], then ["  ..."] when the
    list is longer than five. *)
Definition show_first_five (result : value) (k : string)
    (line : value -> outcome string) : M unit :=
  listed <- lift (py_getitem result k) ;;
  head <- lift (py_first_five listed) ;;
  items <- lift (py_iter head) ;;
  for_each (fun x => text <- lift (line x) ;; print text) items ;;
  listed <- lift (py_getitem result k) ;;
  n <- lift (py_len listed) ;;
  if 5 <? n then print "  ..." else ret tt.

Definition show_positions (client : N2YOClient) : M unit :=
  positions <-
    get_positions W client ISS observer_lat observer_lng observer_alt
      (VInt 60) ;;
  found <- lift (has_results positions "positions") ;;
  (if found then
     listed <- lift (py_getitem positions "positions") ;;
     n <- lift (py_len listed) ;;
     name <- lift (py_getitem positions "satname") ;;
     print ("Found " ++ PyStr.of_Z n ++ " position points for "
            ++ py_format W name ++ ".") ;;
     show_first_five positions "positions" position_line
   else print "Could not retrieve position data.") ;;
  print RULE.

(** The line printed for one satellite overhead. *)
Definition satellite_line (sat : value) : outcome string :=
  let* name := py_getitem sat "name" in
  let* id := py_getitem sat "id" in
  let* latitude := py_getitem sat "latitude" in
  let* lat := format_fixed 4 latitude in
  let* longitude := py_getitem sat "longitude" in
  let* lng := format_fixed 4 longitude in
  Ok ("  - Name: " ++ py_format W name ++ " (ID: " ++ py_format W id
      ++ "), Lat: " ++ lat ++ ", Lng: " ++ lng)%string.

Definition show_objects_above (client : N2YOClient) : M unit :=
  satellites_above <-
    get_objects_above W client observer_lat observer_lng observer_alt
      (VInt 45) (VInt 0) ;;
  found <- lift (has_results satellites_above "satellites") ;;
  (if found then
     count <- lift (py_getitem satellites_above "count") ;;
     category <- lift (py_getitem satellites_above "category") ;;
     print ("Found " ++ py_format W count ++ " satellites in the '"
            ++ py_format W category ++ "' category.") ;;
     show_first_five satellites_above "satellites" satellite_line
   else print "No satellites found above this location currently.") ;;
  print RULE.

(** [main()]; [env_key] is [os.getenv("N2YO_KEY")] after [load_dotenv()]. *)
Definition main (env_key : value) : M unit :=
  if negb (truthy env_key) then
    print "Error: N2YO_KEY not found in .env file."
  else
    client <- lift (N2YOClient_init env_key) ;;
    print "--- Fetching TLE data for the International Space Station (ISS) ---" ;;
    guarded "TLE data" (show_tle client) ;;
    print (NEWLINE
           ++ "--- Predicting visual passes for ISS over New York City ---") ;;
    guarded "visual passes" (show_visual_passes client) ;;
    print (NEWLINE
           ++ "--- Getting future positions for ISS (next 60 seconds) ---") ;;
    guarded "positions" (show_positions client) ;;
    print (NEWLINE
           ++ "--- Getting satellites currently above New York City (45"
           ++ DEGREE_SIGN ++ " radius) ---") ;;
    guarded "objects above" (show_objects_above client).

(** The four requests of the demonstration, in the order they are sent. *)
Definition main_requests (client : N2YOClient) : list event :=
  [EvGet (tle_url W client ISS) None;
   EvGet (passes_url W client "visualpasses" ISS observer_lat observer_lng
            observer_alt (VInt 5) (VInt 100)) (Some 10);
   EvGet (positions_url W client ISS observer_lat observer_lng observer_alt
            (VInt 60)) None;
   EvGet (above_url W client observer_lat observer_lng observer_alt
            (VInt 45) (VInt 0)) (Some 15)].

End Console.

(** The computation [m] sends the requests [reqs], in this order, and no
    other, whatever was sent before it. *)
Definition sends {A} (m : M A) (reqs : list event) : Prop :=
  forall t0, network_calls (snd (m t0)) = (network_calls t0 ++ reqs)%list.

(** The computation [m] ends without an exception. *)
Definition never_raises (m : M unit) : Prop :=
  forall t0, fst (m t0) = Ok tt.

End Driver.

(* ================================================================== *)
(** * Properties of the client *)

(** ** Running an operation *)

Section Running.

Variable W : World.
Variable self : N2YOClient.

Lemma run_request_then (url : string) (timeout : option Z)
    (f : value -> outcome value) (handler : exn -> M value) :
  run (try_except (data <- request_json W url timeout ;; lift (f data))%M
         handler)
  = match http_get W url timeout with
    | Ok data =>
        match f data with
        | Ok r => (Ok r, [EvGet url timeout])
        | Raise e => handler e [EvGet url timeout]
        end
    | Raise e => handler e [EvGet url timeout]
    end.
Proof.
  unfold run, try_except, bind, request_json, lift; simpl.
  destruct (http_get W url timeout) as [data|e]; [|reflexivity].
  destruct (f data); reflexivity.
Qed.

Lemma log_and_reraise_request (e : exn) (t : trace) :
  is_RequestException e = true ->
  @log_and_reraise value e t
  = (Raise e, (t ++ [EvPrint ("HTTP Request failed: " ++ exn_msg e)])%list).
Proof.
  intros He. unfold log_and_reraise. rewrite He. reflexivity.
Qed.

Lemma warn_and_return_none_request (e : exn) (t : trace) :
  is_RequestException e = true ->
  warn_and_return_none e t
  = (Ok VNone,
     (t ++ [EvPrint (WARNING_SIGN ++ " API request failed: " ++ exn_msg e)])%list).
Proof.
  intros He. unfold warn_and_return_none. rewrite He. reflexivity.
Qed.

Lemma warn_and_return_none_other (e : exn) (t : trace) :
  is_RequestException e = false ->
  warn_and_return_none e t = (Raise e, t).
Proof.
  intros He. unfold warn_and_return_none. rewrite He. reflexivity.
Qed.

End Running.

(** ** Checks made before the request *)

(** C1 (as amended).  A satellite id that is falsy (0, [None], ...) makes
    [get_tle] and [get_positions] raise a [ValueError] with nothing sent and
    nothing printed. *)
Theorem falsy_sat_id_rejected_before_request :
  forall (W : World) (self : N2YOClient) (sat_id : value),
    truthy sat_id = false ->
    run (get_tle W self sat_id)
    = (Raise (Exn ValueError "sat_id is required."), [])
    /\ forall lat lng alt seconds,
         run (get_positions W self sat_id lat lng alt seconds)
         = (Raise (Exn ValueError
                     "Missing required parameters (sat_id, lat, lng)."), []).
Proof.
  intros W self sat_id Hfalsy. split.
  - unfold get_tle. rewrite Hfalsy. reflexivity.
  - intros lat lng alt seconds.
    unfold get_positions, py_all. simpl forallb. rewrite Hfalsy. reflexivity.
Qed.

Lemma falsy_sat_id_rejected_before_request_witness :
  run (get_tle (canned_world (Ok tle_payload)) demo_client (VInt 0))
  = (Raise (Exn ValueError "sat_id is required."), [])
  /\ forall lat lng alt seconds,
       run (get_positions (canned_world (Ok tle_payload)) demo_client
              (VInt 0) lat lng alt seconds)
       = (Raise (Exn ValueError
                   "Missing required parameters (sat_id, lat, lng)."), []).
Proof.
  apply (falsy_sat_id_rejected_before_request
           (canned_world (Ok tle_payload)) demo_client (VInt 0)).
  reflexivity.
Defined.

(** C1 as first stated fails: the id -1 is not above zero, yet [get_tle]
    and [get_positions] send their request and return the answer. *)
Lemma negative_sat_id_reaches_the_service :
  -1 <= 0
  /\ run (get_tle (canned_world (Ok tle_payload)) demo_client (VInt (-1)))
     = (Ok (VDict [("satid", VInt 25544); ("satname", VStr "SPACE STATION");
                   ("transactions", VInt 4);
                   ("tle", VDict [("line1", VStr "LINE1");
                                  ("line2", VStr "LINE2")])]),
        [EvGet "https://api.n2yo.com/rest/v1/satellite/tle/-1&apiKey=KEY"
           None])
  /\ run (get_positions (canned_world (Ok positions_payload)) demo_client
            (VInt (-1)) (VInt 41) (VInt (-74)) (VInt 10) (VInt 60))
     = (Ok (VDict [("satid", VInt 25544); ("satname", VStr "SPACE STATION");
                   ("transactions", VInt 4);
                   ("positions",
                    VList [VDict [("latitude", VInt 12);
                                  ("longitude", VInt 34);
                                  ("altitude", VInt 420);
                                  ("azimuth", VInt 100);
                                  ("elevation", VInt 5);
                                  ("ra", VInt 1); ("dec", VInt 2);
                                  ("timestamp", VInt 1521354418)]])]),
        [EvGet
           "https://api.n2yo.com/rest/v1/satellite/positions/-1/41/-74/10/60/&apiKey=KEY"
           None]).
Proof.
  split; [lia|]. split; vm_compute; reflexivity.
Qed.

(** C2.  The observer at latitude 0.0 and longitude 0.0: [get_positions]
    refuses the call as if the coordinates were missing, before any request,
    while [get_visual_passes], [get_radio_passes] and [get_objects_above]
    take the same coordinates and send their request. *)
Theorem get_positions_rejects_zero_coordinates :
  let w := canned_world (Ok empty_passes_payload) in
  let zero := VFloat (S754_zero false) in
  run (get_positions w demo_client (VInt 25544) zero zero (VInt 10) (VInt 60))
  = (Raise (Exn ValueError
              "Missing required parameters (sat_id, lat, lng)."), [])
  /\ run (get_visual_passes w demo_client (VInt 25544) zero zero (VInt 10)
            (VInt 2) (VInt 60) false)
     = (Ok (VDict [("satellite", VStr "SPACE STATION");
                   ("passes", VList [])]),
        [EvGet
           "https://api.n2yo.com/rest/v1/satellite/visualpasses/25544/0.0/0.0/10/2/60/&apiKey=KEY"
           (Some 10)])
  /\ run (get_radio_passes w demo_client (VInt 25544) zero zero (VInt 10)
            (VInt 2) (VInt 30) false)
     = (Ok (VDict [("satellite", VStr "SPACE STATION");
                   ("passes", VList [])]),
        [EvGet
           "https://api.n2yo.com/rest/v1/satellite/radiopasses/25544/0.0/0.0/10/2/30/&apiKey=KEY"
           (Some 10)])
  /\ run (get_objects_above w demo_client zero zero (VInt 10) (VInt 90)
            (VInt 0))
     = (Ok (VDict [("category", VStr "ANY"); ("count", VInt 0);
                   ("satellites", VList [])]),
        [EvGet
           "https://api.n2yo.com/rest/v1/satellite/above/0.0/0.0/10/90/0/&apiKey=KEY"
           (Some 15)]).
Proof.
  repeat split; vm_compute; reflexivity.
Qed.

(** A zero latitude or longitude of any kind (0, 0.0, -0.0) meets the same
    refusal, whatever the other arguments are. *)
Lemma get_positions_needs_truthy_coordinates :
  forall (W : World) (self : N2YOClient) (sat_id lat lng alt seconds : value),
    truthy lat = false \/ truthy lng = false ->
    run (get_positions W self sat_id lat lng alt seconds)
    = (Raise (Exn ValueError
                "Missing required parameters (sat_id, lat, lng)."), []).
Proof.
  intros W self sat_id lat lng alt seconds H.
  unfold get_positions, py_all. simpl forallb.
  replace (truthy sat_id && (truthy lat && (truthy lng && true))) with false;
    [reflexivity|].
  destruct H as [H|H]; rewrite H; destruct (truthy sat_id);
    try destruct (truthy lat); reflexivity.
Qed.

(** The pass and overhead operations look at no argument before the
    request: whatever the coordinates, the first thing they do is send
    it. *)
Lemma coordinates_unchecked_by_sibling_operations :
  forall (W : World) (self : N2YOClient) (op : operation),
    (match op with Positions _ _ _ _ _ => False | _ => True end) ->
    exists url timeout t,
      snd (run (call W self op)) = (EvGet url timeout :: t)%list.
Proof.
  intros W self op Hop.
  destruct op; try contradiction; simpl call;
    unfold get_visual_passes, get_radio_passes, get_objects_above;
    rewrite run_request_then;
    match goal with
    | |- context [http_get W ?u ?tm] =>
        exists u, tm; destruct (http_get W u tm) as [data|e]
    end;
    try match goal with
      | |- context [match ?o with Ok _ => _ | Raise _ => _ end] =>
          destruct o as [r|e]
      end;
    try (exists []; reflexivity);
    unfold warn_and_return_none, bind, print, ret, raise;
    destruct (is_RequestException e); eexists; reflexivity.
Qed.

(** ** Failure of the transport *)

(** C3.  When the request fails with a [RequestException], [get_tle] prints
    the failure and raises the same exception again, whereas
    [get_visual_passes] prints a warning and returns [None]. *)
Theorem transport_failure_propagates_or_yields_none :
  forall (W : World) (self : N2YOClient) (e : exn)
         (sat_id lat lng alt days min_visibility : value)
         (convert_to_local : bool),
    (forall url timeout, http_get W url timeout = Raise e) ->
    is_RequestException e = true ->
    truthy sat_id = true ->
    run (get_tle W self sat_id)
    = (Raise e,
       [EvGet (tle_url W self sat_id) None;
        EvPrint ("HTTP Request failed: " ++ exn_msg e)])
    /\ run (get_visual_passes W self sat_id lat lng alt days min_visibility
              convert_to_local)
       = (Ok VNone,
          [EvGet (passes_url W self "visualpasses" sat_id lat lng alt days
                    min_visibility) (Some 10);
           EvPrint (WARNING_SIGN ++ " API request failed: " ++ exn_msg e)]).
Proof.
  intros W self e sat_id lat lng alt days min_visibility conv Hfail He Hsat.
  split.
  - unfold get_tle. rewrite Hsat. cbv zeta. simpl negb. cbv iota.
    rewrite run_request_then, Hfail.
    now rewrite log_and_reraise_request.
  - unfold get_visual_passes. cbv zeta.
    rewrite run_request_then, Hfail.
    now rewrite warn_and_return_none_request.
Qed.

Lemma transport_failure_propagates_or_yields_none_witness :
  run (get_tle (canned_world (Raise connection_error)) demo_client
         (VInt 25544))
  = (Raise connection_error,
     [EvGet "https://api.n2yo.com/rest/v1/satellite/tle/25544&apiKey=KEY" None;
      EvPrint "HTTP Request failed: connection refused"])
  /\ run (get_visual_passes (canned_world (Raise connection_error))
            demo_client (VInt 25544) (VInt 41) (VInt (-74)) (VInt 10)
            (VInt 2) (VInt 60) false)
     = (Ok VNone,
        [EvGet
           "https://api.n2yo.com/rest/v1/satellite/visualpasses/25544/41/-74/10/2/60/&apiKey=KEY"
           (Some 10);
         EvPrint (WARNING_SIGN ++ " API request failed: connection refused")]).
Proof.
  apply (transport_failure_propagates_or_yields_none
           (canned_world (Raise connection_error)) demo_client
           connection_error (VInt 25544) (VInt 41) (VInt (-74)) (VInt 10)
           (VInt 2) (VInt 60) false).
  - intros url timeout. reflexivity.
  - reflexivity.
  - reflexivity.
Defined.

(** Whatever kind of number [seconds] is (an [int], a [float]), once it
    compares above 300 the call is refused before the request. *)
Lemma seconds_check_precedes_request :
  forall (W : World) (self : N2YOClient)
         (sat_id observer_lat observer_lng observer_alt seconds : value),
    py_gt_int seconds 300 = Ok true ->
    exists msg,
      run (get_positions W self sat_id observer_lat observer_lng observer_alt
             seconds)
      = (Raise (Exn ValueError msg), []).
Proof.
  intros W self sat_id lat lng alt seconds Hsec.
  unfold get_positions. rewrite Hsec.
  destruct (py_all [sat_id; lat; lng]); eexists; reflexivity.
Qed.

Example half_a_second_too_many :
  py_gt_int (VFloat (S754_finite false 601 (-1))) 300 = Ok true
  /\ py_gt_int (VFloat (S754_finite false 75 2)) 300 = Ok false
  /\ py_gt_int (VFloat S754_nan) 300 = Ok false.
Proof. repeat split; reflexivity. Qed.

(** C4.  With [seconds] above 300, [get_positions] raises a [ValueError]
    and sends nothing (and prints nothing), whatever its other arguments. *)
Theorem seconds_above_300_rejected_before_request :
  forall (W : World) (self : N2YOClient)
         (sat_id observer_lat observer_lng observer_alt : value) (seconds : Z),
    300 < seconds ->
    exists msg,
      run (get_positions W self sat_id observer_lat observer_lng observer_alt
             (VInt seconds))
      = (Raise (Exn ValueError msg), [])
      /\ (py_all [sat_id; observer_lat; observer_lng] = true ->
          msg = "Seconds parameter cannot exceed 300 (per API limit).").
Proof.
  intros W self sat_id lat lng alt seconds Hsec.
  unfold get_positions.
  destruct (py_all [sat_id; lat; lng]) eqn:Hall; simpl negb; cbv iota.
  - unfold py_gt_int.
    assert (Hlt : (300 <? seconds) = true) by (apply Z.ltb_lt; exact Hsec).
    rewrite Hlt. eexists. split; [reflexivity|]. intros _. reflexivity.
  - eexists. split; [reflexivity|]. intros H; discriminate H.
Qed.

Lemma seconds_above_300_rejected_before_request_witness :
  exists msg,
    run (get_positions (canned_world (Ok positions_payload)) demo_client
           (VInt 25544) (VInt 41) (VInt (-74)) (VInt 10) (VInt 301))
    = (Raise (Exn ValueError msg), [])
    /\ (py_all [VInt 25544; VInt 41; VInt (-74)] = true ->
        msg = "Seconds parameter cannot exceed 300 (per API limit).").
Proof.
  apply (seconds_above_300_rejected_before_request
           (canned_world (Ok positions_payload)) demo_client
           (VInt 25544) (VInt 41) (VInt (-74)) (VInt 10) 301).
  lia.
Defined.

(** ** Splitting the element set into lines *)

Section Lines.

Import PyStr.

Lemma rstrip_empty (s : string) :
  String.eqb (rstrip s) EmptyString = all_space s.
Proof.
  induction s as [|c r IH]; [reflexivity|].
  simpl. destruct (rstrip r) as [|c' r'].
  - simpl in IH. rewrite <- IH. destruct (is_space c); reflexivity.
  - simpl in IH. rewrite <- IH. now rewrite andb_false_r.
Qed.

Lemma all_space_lstrip (s : string) : all_space (lstrip s) = all_space s.
Proof.
  induction s as [|c r IH]; [reflexivity|].
  simpl. destruct (is_space c) eqn:Hc.
  - exact IH.
  - simpl. now rewrite Hc.
Qed.

(** A line survives the filter of [get_tle] exactly when it is not blank. *)
Lemma strip_truthy (s : string) : truthy (VStr (strip s)) = nonblank s.
Proof.
  unfold truthy, strip, nonblank.
  now rewrite rstrip_empty, all_space_lstrip.
Qed.

Lemma no_crlf_head (c d : ascii) (r : string) :
  no_crlf (String c (String d r)) ->
  (Ascii.eqb c CR && Ascii.eqb d LF)%bool = false.
Proof.
  unfold no_crlf. intros H.
  destruct (Ascii.eqb c CR) eqn:Hc; [|reflexivity].
  destruct (Ascii.eqb d LF) eqn:Hd; [|reflexivity].
  apply Ascii.eqb_eq in Hc, Hd. subst c d.
  destruct r; simpl in H; discriminate H.
Qed.

Lemma no_crlf_tail (c : ascii) (r : string) :
  no_crlf (String c r) -> no_crlf r.
Proof.
  unfold no_crlf. simpl contains. intros H.
  apply orb_false_iff in H. exact (proj2 H).
Qed.

Lemma split_crlf_last (seg : string) :
  no_crlf seg -> split_crlf seg = [seg].
Proof.
  induction seg as [|c r IH]; intros Hseg; [reflexivity|].
  pose proof (IH (no_crlf_tail _ _ Hseg)) as IHr.
  destruct r as [|d r'].
  - reflexivity.
  - change (split_crlf (String c (String d r')))
      with (if (Ascii.eqb c CR && Ascii.eqb d LF)%bool
            then EmptyString :: split_crlf r'
            else push_char c (split_crlf (String d r'))).
    rewrite (no_crlf_head _ _ _ Hseg), IHr. reflexivity.
Qed.

Lemma split_crlf_segment (seg rest : string) :
  no_crlf seg ->
  split_crlf (seg ++ CRLF ++ rest) = seg :: split_crlf rest.
Proof.
  induction seg as [|c r IH]; intros Hseg.
  - reflexivity.
  - pose proof (IH (no_crlf_tail _ _ Hseg)) as IHr.
    destruct r as [|d r'].
    + change (split_crlf (String c EmptyString ++ CRLF ++ rest))
        with (if (Ascii.eqb c CR && Ascii.eqb CR LF)%bool
              then EmptyString :: split_crlf (String LF rest)
              else push_char c (split_crlf (CRLF ++ rest))).
      replace (Ascii.eqb CR LF) with false by reflexivity.
      rewrite andb_false_r.
      change (split_crlf (CRLF ++ rest)) with (EmptyString :: split_crlf rest).
      reflexivity.
    + change (split_crlf (String c (String d r') ++ CRLF ++ rest))
        with (if (Ascii.eqb c CR && Ascii.eqb d LF)%bool
              then EmptyString :: split_crlf (r' ++ CRLF ++ rest)
              else push_char c (split_crlf (String d r' ++ CRLF ++ rest))).
      rewrite (no_crlf_head _ _ _ Hseg), IHr. reflexivity.
Qed.

(** Splitting undoes joining: the segments come back as they were. *)
Lemma split_crlf_join (segs : list string) :
  segs <> [] ->
  Forall no_crlf segs ->
  split_crlf (join_crlf segs) = segs.
Proof.
  induction segs as [|seg rest IH]; intros Hne Hall; [congruence|].
  inversion Hall as [|? ? Hseg Hrest]; subst.
  destruct rest as [|seg' rest'].
  - simpl. now apply split_crlf_last.
  - change (join_crlf (seg :: seg' :: rest'))
      with (seg ++ CRLF ++ join_crlf (seg' :: rest')).
    rewrite split_crlf_segment by exact Hseg.
    rewrite IH; [reflexivity|discriminate|exact Hrest].
Qed.

Lemma tle_lines_of_join (segs : list string) :
  Forall no_crlf segs ->
  filter (fun line => truthy (VStr (strip line))) (split_crlf (join_crlf segs))
  = filter nonblank segs.
Proof.
  intros Hall.
  rewrite (filter_ext _ nonblank strip_truthy).
  destruct segs as [|seg rest]; [reflexivity|].
  rewrite split_crlf_join; [reflexivity|discriminate|exact Hall].
Qed.

End Lines.

(** ** [get_tle] *)

(** C5.  When the [tle] field of the answer is made of segments joined by
    CR LF, [get_tle] returns the first two segments that are not blank as
    [line1] and [line2]; a line that is not there is [None]. *)
Theorem tle_lines_are_first_two_nonblank_segments :
  forall (W : World) (self : N2YOClient) (sat_id : value)
         (d info : list (string * value)) (satid satname transactions : value)
         (segs : list string),
    truthy sat_id = true ->
    http_get W (tle_url W self sat_id) None = Ok (VDict d) ->
    lookup "tle" d = Some (VStr (PyStr.join_crlf segs)) ->
    Forall no_crlf segs ->
    lookup "info" d = Some (VDict info) ->
    lookup "satid" info = Some satid ->
    lookup "satname" info = Some satname ->
    lookup "transactionscount" info = Some transactions ->
    run (get_tle W self sat_id)
    = (Ok (VDict
             [("satid", satid);
              ("satname", satname);
              ("transactions", transactions);
              ("tle",
               VDict [("line1", fst (first_two (filter nonblank segs)));
                      ("line2", snd (first_two (filter nonblank segs)))])]),
       [EvGet (tle_url W self sat_id) None]).
Proof.
  intros W self sat_id d info satid satname transactions segs
         Hsat Hget Htle Hsegs Hinfo Hid Hname Htx.
  unfold get_tle. rewrite Hsat. simpl negb. cbv iota zeta.
  rewrite run_request_then, Hget.
  unfold tle_of_payload, py_contains, py_getitem, obind.
  rewrite Htle. simpl negb. cbv iota.
  unfold py_split_crlf. rewrite Hinfo, Hid, Hname, Htx.
  rewrite (tle_lines_of_join segs Hsegs).
  destruct (filter nonblank segs) as [|a [|b rest]]; reflexivity.
Qed.

Lemma tle_lines_are_first_two_nonblank_segments_witness :
  run (get_tle (canned_world (Ok tle_payload)) demo_client (VInt 25544))
  = (Ok (VDict
           [("satid", VInt 25544);
            ("satname", VStr "SPACE STATION");
            ("transactions", VInt 4);
            ("tle", VDict [("line1", VStr "LINE1"); ("line2", VStr "LINE2")])]),
     [EvGet "https://api.n2yo.com/rest/v1/satellite/tle/25544&apiKey=KEY"
        None]).
Proof.
  apply (tle_lines_are_first_two_nonblank_segments
           (canned_world (Ok tle_payload)) demo_client (VInt 25544)
           [("info", iss_info);
            ("tle", VStr ("LINE1" ++ PyStr.CRLF ++ "LINE2" ++ PyStr.CRLF))]
           [("satid", VInt 25544); ("satname", VStr "SPACE STATION");
            ("transactionscount", VInt 4); ("category", VStr "ANY");
            ("satcount", VInt 7)]
           (VInt 25544) (VStr "SPACE STATION") (VInt 4)
           ["LINE1"; "LINE2"; ""]).
  - reflexivity.
  - reflexivity.
  - reflexivity.
  - repeat constructor.
  - reflexivity.
  - reflexivity.
  - reflexivity.
  - reflexivity.
Defined.

(** A single line, with a blank one before and after it: [line2] is
    [None]. *)
Example tle_with_one_line :
  tle_of_payload
    (VDict [("info", iss_info);
            ("tle", VStr (" " ++ PyStr.CRLF ++ "LINE1" ++ PyStr.CRLF))])
  = Ok (VDict
          [("satid", VInt 25544);
           ("satname", VStr "SPACE STATION");
           ("transactions", VInt 4);
           ("tle", VDict [("line1", VStr "LINE1"); ("line2", VNone)])]).
Proof. reflexivity. Qed.

(** ** Answers without passes *)

(** C7.  When the answer has no [passes], or an empty list of them,
    [get_visual_passes] returns a result with no passes, named after
    [info.satname] when the answer has it and ["Unknown"] otherwise. *)
Theorem visual_passes_empty_when_none_listed :
  forall (W : World) (self : N2YOClient)
         (sat_id lat lng alt days min_visibility : value)
         (convert_to_local : bool) (d : list (string * value)),
    http_get W (passes_url W self "visualpasses" sat_id lat lng alt days
                  min_visibility) (Some 10)
    = Ok (VDict d) ->
    lookup "passes" d = None \/ lookup "passes" d = Some (VList []) ->
    lookup "info" d = None
    \/ (exists info, lookup "info" d = Some (VDict info)) ->
    run (get_visual_passes W self sat_id lat lng alt days min_visibility
           convert_to_local)
    = (Ok (VDict [("satellite", payload_satname_or_unknown d);
                  ("passes", VList [])]),
       [EvGet (passes_url W self "visualpasses" sat_id lat lng alt days
                 min_visibility) (Some 10)]).
Proof.
  intros W self sat_id lat lng alt days min_visibility conv d
         Hget Hpasses Hinfo.
  unfold get_visual_passes. cbv zeta.
  rewrite run_request_then, Hget.
  unfold passes_of_payload, missing_or_empty, satname_or_unknown,
    payload_satname_or_unknown, py_contains, py_getitem, py_get, obind.
  destruct Hpasses as [Hp|Hp]; rewrite Hp; simpl;
    destruct Hinfo as [Hi|[info Hi]]; rewrite Hi; try reflexivity;
    destruct (lookup "satname" info); reflexivity.
Qed.

Lemma visual_passes_empty_when_none_listed_witness :
  run (get_visual_passes (canned_world (Ok empty_passes_payload)) demo_client
         (VInt 25544) (VInt 41) (VInt (-74)) (VInt 10) (VInt 2) (VInt 60)
         false)
  = (Ok (VDict [("satellite", VStr "SPACE STATION"); ("passes", VList [])]),
     [EvGet
        "https://api.n2yo.com/rest/v1/satellite/visualpasses/25544/41/-74/10/2/60/&apiKey=KEY"
        (Some 10)]).
Proof.
  apply (visual_passes_empty_when_none_listed
           (canned_world (Ok empty_passes_payload)) demo_client
           (VInt 25544) (VInt 41) (VInt (-74)) (VInt 10) (VInt 2) (VInt 60)
           false
           [("info", iss_info); ("passes", VList [])]).
  - reflexivity.
  - right. reflexivity.
  - right. eexists. reflexivity.
Defined.

(** Without [info] the name is ["Unknown"]; an [info] that is not an object
    is outside the shape the theorem covers, and makes the operation raise. *)
Example visual_passes_without_info :
  passes_of_payload (visual_pass_record (canned_world (Ok VNone)) false)
    (VDict [("passes", VList [])])
  = Ok (VDict [("satellite", VStr "Unknown"); ("passes", VList [])])
  /\ passes_of_payload (visual_pass_record (canned_world (Ok VNone)) false)
       (VDict [("info", VNone)])
     = Raise (Exn AttributeError "object has no attribute 'get'").
Proof. split; reflexivity. Qed.

(** ** The loops *)

Section Loops.

Variable body : value -> outcome value.

Lemma collect_acc (items acc : list value) :
  collect body items acc
  = match collect body items [] with
    | Ok rs => Ok (acc ++ rs)%list
    | Raise e => Raise e
    end.
Proof.
  revert acc. induction items as [|p rest IH]; intros acc; simpl.
  - now rewrite app_nil_r.
  - destruct (body p) as [r|e]; [|reflexivity].
    rewrite (IH (acc ++ [r])%list), (IH [r]).
    destruct (collect body rest []) as [rs|e]; [|reflexivity].
    now rewrite <- app_assoc.
Qed.

(** The loop ends with a list exactly when the body accepts every element,
    and the list then holds the records in the order of the elements. *)
Lemma collect_spec (items rs : list value) :
  collect body items [] = Ok rs
  <-> Forall2 (fun p r => body p = Ok r) items rs.
Proof.
  revert rs. induction items as [|p rest IH]; intros rs; simpl.
  - split.
    + intros H. injection H as <-. constructor.
    + intros H. inversion H. reflexivity.
  - destruct (body p) as [r|e] eqn:Hp.
    + rewrite collect_acc. split.
      * destruct (collect body rest []) as [rs'|e] eqn:Hrest; [|discriminate].
        intros H. injection H as <-. constructor; [exact Hp|].
        now apply IH.
      * intros H. inversion H as [|? r' ? rs' Hr Hrest]; subst.
        rewrite Hp in Hr. injection Hr as <-.
        apply IH in Hrest. now rewrite Hrest.
    + split; [discriminate|].
      intros H. inversion H as [|? r' ? rs' Hr Hrest]; subst.
      rewrite Hp in Hr. discriminate Hr.
Qed.

Lemma collect_total (items : list value) :
  Forall (fun p => exists r, body p = Ok r) items ->
  exists rs, collect body items [] = Ok rs.
Proof.
  induction 1 as [|p rest [r Hr] _ [rs IH]].
  - exists []. reflexivity.
  - exists (r :: rs). apply collect_spec. constructor; [exact Hr|].
    now apply collect_spec.
Qed.

Lemma Forall2_pointwise (ps rs : list value) :
  Forall2 (fun p r => body p = Ok r) ps rs -> pointwise body ps rs.
Proof.
  induction 1 as [|p r ps rs Hr Hrest [Hlen IH]].
  - split; [reflexivity|]. intros [|i] p H; discriminate H.
  - split; [simpl; now rewrite Hlen|].
    intros [|i] q Hq; simpl in *.
    + injection Hq as <-. exists r. split; [reflexivity|exact Hr].
    + now apply IH.
Qed.

End Loops.

Lemma forallb_Forall_ok (wf : value -> bool) (body : value -> outcome value)
    (ps : list value) :
  (forall p, wf p = true -> exists r, body p = Ok r) ->
  forallb wf ps = true ->
  Forall (fun p => exists r, body p = Ok r) ps.
Proof.
  intros Hwf Hall. apply Forall_forall. intros p Hin. apply Hwf.
  rewrite forallb_forall in Hall. now apply Hall.
Qed.

(** ** Time stamps *)

Lemma int_total_seconds_whole (x : Z) :
  PyTime.int_total_seconds (x * PyTime.US_PER_SECOND) = x.
Proof.
  unfold PyTime.int_total_seconds, PyTime.US_PER_SECOND.
  rewrite Z.abs_mul. change (Z.abs 1000000) with 1000000.
  rewrite Z.mod_mul by lia. rewrite Z.div_mul by lia.
  change (0 =? 0) with true. cbv iota.
  rewrite Z.sgn_mul. change (Z.sgn 1000000) with 1.
  rewrite Z.mul_1_r. rewrite Z.mul_comm. apply Z.abs_sgn.
Qed.

Lemma timestamp_field_ok_inv (W : World) (conv : bool) (k : string)
    (items : list (string * value)) :
  timestamp_field_ok W conv k (VDict items) = true ->
  exists z, lookup k items = Some (VInt z) /\ timestamp_ok W conv z = true.
Proof.
  unfold timestamp_field_ok, int_field.
  destruct (lookup k items) as [[]|]; try discriminate.
  intros H. eexists. split; [reflexivity|exact H].
Qed.

Lemma fromtimestamp_utc_ok (W : World) (conv : bool) (z : Z) :
  timestamp_ok W conv z = true ->
  fromtimestamp_utc W (VInt z) = Ok (Datetime (z * PyTime.US_PER_SECOND) UTC).
Proof.
  unfold timestamp_ok, fromtimestamp_utc. intros H.
  apply andb_prop in H. destruct H as [H _]. now rewrite H.
Qed.

Lemma localize_ok (W : World) (conv : bool) (z : Z) :
  timestamp_ok W conv z = true ->
  (if conv then astimezone W (Datetime (z * PyTime.US_PER_SECOND) UTC)
   else Ok (Datetime (z * PyTime.US_PER_SECOND) UTC))
  = Ok (stamp W conv z).
Proof.
  unfold timestamp_ok, stamp, astimezone. intros H.
  apply andb_prop in H. destruct H as [_ H].
  destruct conv; [|reflexivity].
  simpl in H. simpl dt_micros. now rewrite H.
Qed.

Lemma datetime_sub_stamps (W : World) (conv : bool) (e s : Z) :
  datetime_sub (stamp W conv e) (stamp W conv s)
  = Ok ((e - s) * PyTime.US_PER_SECOND).
Proof.
  unfold datetime_sub, stamp. destruct conv; simpl; f_equal; ring.
Qed.

Lemma lookup_dict_set_other (k k' : string) (v : value)
    (items : list (string * value)) :
  String.eqb k k' = false ->
  lookup k (dict_set k' v items) = lookup k items.
Proof.
  intros Hk. induction items as [|[k0 v0] rest IH]; simpl.
  - now rewrite Hk.
  - destruct (String.eqb k' k0) eqn:Hk0; simpl.
    + rewrite Hk. apply String.eqb_eq in Hk0. subst k0. now rewrite Hk.
    + now rewrite IH.
Qed.

(** ** The records of the loops *)

Lemma py_getitem_some (items : list (string * value)) (k : string) (v : value) :
  lookup k items = Some v -> py_getitem (VDict items) k = Ok v.
Proof. intros H. unfold py_getitem. now rewrite H. Qed.

Lemma has_key_inv (k : string) (items : list (string * value)) :
  has_key k (VDict items) = true -> exists v, lookup k items = Some v.
Proof.
  unfold has_key. destruct (lookup k items) as [v|]; [|discriminate].
  intros _. now exists v.
Qed.

(** Reads the keys that [H : has_keys ks (VDict items) = true] promises. *)
Ltac read_keys H :=
  unfold has_keys in H; cbn [forallb] in H;
  repeat (let Hk := fresh "Hkey" in
          apply andb_prop in H; destruct H as [Hk H];
          apply has_key_inv in Hk; destruct Hk as [? Hk];
          apply py_getitem_some in Hk).

(** Runs the successive look-ups of a loop body. *)
Ltac run_getitems :=
  repeat match goal with
    | Hk : py_getitem ?p ?k = Ok _ |- context [py_getitem ?p ?k] =>
        rewrite Hk; cbn [obind]
    end.

Lemma position_record_wf (p : value) :
  wf_position p = true -> exists r, position_record p = Ok r.
Proof.
  destruct p as [| | | | |?|items|]; try discriminate.
  unfold wf_position. intros H. read_keys H.
  unfold position_record, py_get_opt, py_get. run_getitems.
  eexists. reflexivity.
Qed.

Lemma launch_date_unreadable_none (sat : value) :
  launch_date_unreadable sat -> launch_date_of sat = VNone.
Proof.
  unfold launch_date_unreadable, launch_date_of, py_getitem, obind.
  destruct sat as [| | | | |?|items|]; try reflexivity.
  destruct (lookup "launchDate" items) as [v|]; [|reflexivity].
  intros [e He]. now rewrite He.
Qed.

Lemma satellite_record_wf (sat : value) :
  wf_satellite sat = true ->
  exists satid satname designator satlat satlng satalt,
    py_getitem sat "satid" = Ok satid
    /\ py_getitem sat "satname" = Ok satname
    /\ py_getitem sat "intDesignator" = Ok designator
    /\ py_getitem sat "satlat" = Ok satlat
    /\ py_getitem sat "satlng" = Ok satlng
    /\ py_getitem sat "satalt" = Ok satalt
    /\ satellite_record sat
       = Ok (VDict
               [("id", satid);
                ("name", satname);
                ("intl_designator", designator);
                ("launch_date", launch_date_of sat);
                ("latitude", satlat);
                ("longitude", satlng);
                ("altitude_km", satalt)]).
Proof.
  destruct sat as [| | | | |?|items|]; try discriminate.
  unfold wf_satellite. intros H. read_keys H.
  do 6 eexists. repeat (split; [eassumption|]).
  unfold satellite_record. cbv zeta. run_getitems. reflexivity.
Qed.

Lemma visual_pass_record_wf (W : World) (conv : bool) (p : value) :
  wf_visual_pass W conv p = true ->
  exists r, visual_pass_record W conv p = Ok r.
Proof.
  destruct p as [| | | | |?|items|]; try discriminate.
  unfold wf_visual_pass. intros H.
  apply andb_prop in H. destruct H as [H Hkeys].
  apply andb_prop in H. destruct H as [Hs He].
  apply timestamp_field_ok_inv in Hs, He.
  destruct Hs as [s [Hs Hsok]]. destruct He as [e [He Heok]].
  apply py_getitem_some in Hs, He.
  read_keys Hkeys.
  unfold visual_pass_record. run_getitems.
  rewrite (fromtimestamp_utc_ok W conv s Hsok). cbn [obind]. run_getitems.
  rewrite (fromtimestamp_utc_ok W conv e Heok). cbn [obind].
  rewrite (localize_ok W conv s Hsok). cbn [obind].
  rewrite (localize_ok W conv e Heok). cbn [obind].
  run_getitems. eexists. reflexivity.
Qed.

(** The record of a well-formed radio pass: the three moments, the
    duration as the end second minus the start second, and the three fields
    copied from the pass. *)
Lemma radio_pass_record_wf (W : World) (conv : bool) (p : value) :
  wf_radio_pass W conv p = true ->
  exists s m e start_direction end_direction max_el,
    int_field "startUTC" p = Some s
    /\ int_field "endUTC" p = Some e
    /\ radio_pass_record W conv p
       = Ok (VDict
               [("start_time", VDatetime (stamp W conv s));
                ("max_time", VDatetime (stamp W conv m));
                ("end_time", VDatetime (stamp W conv e));
                ("duration_sec", VInt (e - s));
                ("start_direction", start_direction);
                ("end_direction", end_direction);
                ("max_elevation_deg", max_el)]).
Proof.
  destruct p as [| | | | |?|items|]; try discriminate.
  unfold wf_radio_pass. intros H.
  apply andb_prop in H. destruct H as [H Hkeys].
  apply andb_prop in H. destruct H as [H He].
  apply andb_prop in H. destruct H as [Hs Hm].
  apply timestamp_field_ok_inv in Hs, Hm, He.
  destruct Hs as [s [Hs Hsok]]. destruct Hm as [m [Hm Hmok]].
  destruct He as [e [He Heok]].
  exists s, m, e.
  assert (Hsi : int_field "startUTC" (VDict items) = Some s)
    by (unfold int_field; now rewrite Hs).
  assert (Hei : int_field "endUTC" (VDict items) = Some e)
    by (unfold int_field; now rewrite He).
  apply py_getitem_some in Hs, Hm, He.
  read_keys Hkeys.
  do 3 eexists. split; [exact Hsi|]. split; [exact Hei|].
  unfold radio_pass_record. run_getitems.
  rewrite (fromtimestamp_utc_ok W conv s Hsok). cbn [obind]. run_getitems.
  rewrite (fromtimestamp_utc_ok W conv m Hmok). cbn [obind]. run_getitems.
  rewrite (fromtimestamp_utc_ok W conv e Heok). cbn [obind].
  rewrite (localize_ok W conv s Hsok). cbn [obind].
  rewrite (localize_ok W conv m Hmok). cbn [obind].
  rewrite (localize_ok W conv e Heok). cbn [obind].
  rewrite datetime_sub_stamps. cbn [obind]. run_getitems.
  now rewrite int_total_seconds_whole.
Qed.

(** The record of a radio pass does not depend on the [duration] field of
    the pass. *)
Lemma radio_pass_record_ignores_duration (W : World) (conv : bool)
    (p v : value) :
  radio_pass_record W conv (with_field "duration" v p)
  = radio_pass_record W conv p.
Proof.
  destruct p as [| | | | |?|items|]; try reflexivity.
  unfold radio_pass_record, with_field, py_getitem.
  now rewrite !lookup_dict_set_other by reflexivity.
Qed.

(** ** From the payload to the result *)

Lemma passes_of_payload_wf (record : value -> outcome value)
    (d info : list (string * value)) (ps : list value) (name : value) :
  lookup "passes" d = Some (VList ps) ->
  lookup "info" d = Some (VDict info) ->
  lookup "satname" info = Some name ->
  Forall (fun p => exists r, record p = Ok r) ps ->
  exists rs,
    passes_of_payload record (VDict d)
    = Ok (VDict [("satellite", name); ("passes", VList rs)])
    /\ Forall2 (fun p r => record p = Ok r) ps rs.
Proof.
  intros Hps Hinfo Hname Hall.
  unfold passes_of_payload, missing_or_empty, satname_or_unknown,
    py_contains, py_getitem, py_get, py_iter, obind.
  rewrite Hps, Hinfo. cbn [negb].
  destruct ps as [|p rest].
  - cbn [truthy negb]. rewrite Hname. exists []. split; [reflexivity|constructor].
  - cbn [truthy negb].
    destruct (collect_total record (p :: rest) Hall) as [rs Hrs].
    rewrite Hrs, Hname. exists rs. split; [reflexivity|].
    now apply collect_spec.
Qed.

Lemma positions_of_payload_wf (d info : list (string * value))
    (ps : list value) (satid satname transactions : value) :
  lookup "positions" d = Some (VList ps) ->
  lookup "info" d = Some (VDict info) ->
  lookup "satid" info = Some satid ->
  lookup "satname" info = Some satname ->
  lookup "transactionscount" info = Some transactions ->
  Forall (fun p => exists r, position_record p = Ok r) ps ->
  exists rs,
    positions_of_payload (VDict d)
    = Ok (VDict [("satid", satid); ("satname", satname);
                 ("transactions", transactions); ("positions", VList rs)])
    /\ Forall2 (fun p r => position_record p = Ok r) ps rs.
Proof.
  intros Hps Hinfo Hid Hname Htx Hall.
  unfold positions_of_payload, py_contains, py_getitem, py_iter, obind.
  rewrite Hps, Hinfo. cbn [negb].
  destruct (collect_total position_record ps Hall) as [rs Hrs].
  rewrite Hrs, Hid, Hname, Htx. exists rs. split; [reflexivity|].
  now apply collect_spec.
Qed.

Lemma above_of_payload_listed (d info : list (string * value))
    (sats : list value) (category satcount : value) :
  lookup "above" d = Some (VList sats) ->
  lookup "info" d = Some (VDict info) ->
  lookup "category" info = Some category ->
  lookup "satcount" info = Some satcount ->
  Forall (fun p => exists r, satellite_record p = Ok r) sats ->
  exists rs,
    above_of_payload (VDict d)
    = Ok (VDict [("category", category);
                 ("count", match sats with [] => VInt 0 | _ => satcount end);
                 ("satellites", VList rs)])
    /\ Forall2 (fun p r => satellite_record p = Ok r) sats rs.
Proof.
  intros Hsats Hinfo Hcat Hcount Hall.
  unfold above_of_payload, missing_or_empty, py_contains, py_getitem, py_get,
    py_iter, obind.
  rewrite Hsats, Hinfo. cbn [negb].
  destruct sats as [|p rest].
  - cbn [truthy negb]. rewrite Hcat. exists []. split; [reflexivity|constructor].
  - cbn [truthy negb].
    destruct (collect_total satellite_record (p :: rest) Hall) as [rs Hrs].
    rewrite Hrs, Hcat, Hcount. exists rs. split; [reflexivity|].
    now apply collect_spec.
Qed.

Lemma above_of_payload_none (d : list (string * value)) :
  lookup "above" d = None \/ lookup "above" d = Some (VList []) ->
  lookup "info" d = None \/ (exists info, lookup "info" d = Some (VDict info)) ->
  exists category,
    above_of_payload (VDict d)
    = Ok (VDict [("category", category); ("count", VInt 0);
                 ("satellites", VList [])]).
Proof.
  intros Habove Hinfo.
  unfold above_of_payload, missing_or_empty, py_contains, py_getitem, py_get,
    obind.
  destruct Habove as [Ha|Ha]; rewrite Ha; cbn [negb truthy];
    destruct Hinfo as [Hi|[info Hi]]; rewrite Hi; eexists; reflexivity.
Qed.

Lemma wf_nth (wf : value -> bool) (ps : list value) (i : nat) (p : value) :
  forallb wf ps = true -> nth_error ps i = Some p -> wf p = true.
Proof.
  intros Hall Hp. rewrite forallb_forall in Hall.
  apply Hall. eapply nth_error_In. exact Hp.
Qed.

(** ** [get_radio_passes] *)

(** C6.  For an answer whose passes carry whole epoch seconds,
    [get_radio_passes] returns one record per pass whose [duration_sec] is
    the end second minus the start second; the record is the same whatever
    the [duration] field of the pass holds. *)
Theorem radio_duration_is_end_minus_start :
  forall (W : World) (self : N2YOClient)
         (sat_id lat lng alt days min_elevation : value)
         (convert_to_local : bool)
         (d info : list (string * value)) (ps : list value) (name : value),
    http_get W (passes_url W self "radiopasses" sat_id lat lng alt days
                  min_elevation) (Some 10)
    = Ok (VDict d) ->
    lookup "passes" d = Some (VList ps) ->
    lookup "info" d = Some (VDict info) ->
    lookup "satname" info = Some name ->
    forallb (wf_radio_pass W convert_to_local) ps = true ->
    exists rs,
      run (get_radio_passes W self sat_id lat lng alt days min_elevation
             convert_to_local)
      = (Ok (VDict [("satellite", name); ("passes", VList rs)]),
         [EvGet (passes_url W self "radiopasses" sat_id lat lng alt days
                   min_elevation) (Some 10)])
      /\ List.length rs = List.length ps
      /\ forall i p,
           nth_error ps i = Some p ->
           exists r s e,
             nth_error rs i = Some r
             /\ int_field "startUTC" p = Some s
             /\ int_field "endUTC" p = Some e
             /\ py_getitem r "duration_sec" = Ok (VInt (e - s))
             /\ forall v,
                  radio_pass_record W convert_to_local
                    (with_field "duration" v p)
                  = Ok r.
Proof.
  intros W self sat_id lat lng alt days min_elevation conv d info ps name
         Hget Hps Hinfo Hname Hwf.
  assert (Hall : Forall (fun p => exists r, radio_pass_record W conv p = Ok r)
                   ps).
  { apply (forallb_Forall_ok (wf_radio_pass W conv)); [|exact Hwf].
    intros p Hp.
    destruct (radio_pass_record_wf W conv p Hp)
      as (s & m & e & sd & ed & el & _ & _ & Hr).
    eexists. exact Hr. }
  destruct (passes_of_payload_wf _ d info ps name Hps Hinfo Hname Hall)
    as [rs [Hres Hrs]].
  exists rs. split.
  - unfold get_radio_passes. cbv zeta.
    now rewrite run_request_then, Hget, Hres.
  - apply Forall2_pointwise in Hrs. destruct Hrs as [Hlen Hnth].
    split; [exact Hlen|].
    intros i p Hp. destruct (Hnth i p Hp) as [r [Hr Hrec]].
    destruct (radio_pass_record_wf W conv p (wf_nth _ _ _ _ Hwf Hp))
      as (s & m & e & sd & ed & el & Hs & He & Hrec').
    exists r, s, e. repeat (split; [assumption|]).
    rewrite Hrec' in Hrec. injection Hrec as <-.
    split; [reflexivity|].
    intros v. now rewrite radio_pass_record_ignores_duration.
Qed.

Lemma radio_duration_is_end_minus_start_witness :
  exists rs,
    run (get_radio_passes (canned_world (Ok radio_payload)) demo_client
           (VInt 25544) (VInt 41) (VInt (-74)) (VInt 10) (VInt 2) (VInt 30)
           true)
    = (Ok (VDict [("satellite", VStr "SPACE STATION"); ("passes", VList rs)]),
       [EvGet
          "https://api.n2yo.com/rest/v1/satellite/radiopasses/25544/41/-74/10/2/30/&apiKey=KEY"
          (Some 10)])
    /\ List.length rs = 1%nat
    /\ forall i p,
         nth_error [radio_pass] i = Some p ->
         exists r s e,
           nth_error rs i = Some r
           /\ int_field "startUTC" p = Some s
           /\ int_field "endUTC" p = Some e
           /\ py_getitem r "duration_sec" = Ok (VInt (e - s))
           /\ forall v,
                radio_pass_record (canned_world (Ok radio_payload)) true
                  (with_field "duration" v p)
                = Ok r.
Proof.
  apply (radio_duration_is_end_minus_start
           (canned_world (Ok radio_payload)) demo_client
           (VInt 25544) (VInt 41) (VInt (-74)) (VInt 10) (VInt 2) (VInt 30)
           true
           [("info", iss_info); ("passes", VList [radio_pass])]
           [("satid", VInt 25544); ("satname", VStr "SPACE STATION");
            ("transactionscount", VInt 4); ("category", VStr "ANY");
            ("satcount", VInt 7)]
           [radio_pass] (VStr "SPACE STATION")).
  - reflexivity.
  - reflexivity.
  - reflexivity.
  - reflexivity.
  - vm_compute. reflexivity.
Defined.

(** The pass that starts at second 1000 and ends at second 1090 lasts 90
    seconds, although its [duration] field says 999; here with local times,
    one hour east of UTC. *)
Example radio_pass_of_90_seconds :
  radio_pass_record (canned_world (Ok radio_payload)) true radio_pass
  = Ok (VDict
          [("start_time", VDatetime (Datetime 1000000000 (LocalTz 3600)));
           ("max_time", VDatetime (Datetime 1045000000 (LocalTz 3600)));
           ("end_time", VDatetime (Datetime 1090000000 (LocalTz 3600)));
           ("duration_sec", VInt 90);
           ("start_direction", VStr "NW");
           ("end_direction", VStr "ESE");
           ("max_elevation_deg", VInt 52)]).
Proof. vm_compute. reflexivity. Qed.

(** ** [get_objects_above] *)

(** C8.  For an answer that lists satellites, each with its six fields,
    [get_objects_above] returns one record per satellite with the six fields
    copied; where the launch date of a satellite is missing or is not a date
    in the form YYYY-MM-DD, the [launch_date] of its record is [None], and
    nothing is raised. *)
Theorem unreadable_launch_date_is_none :
  forall (W : World) (self : N2YOClient)
         (lat lng alt search_radius category_id : value)
         (d info : list (string * value)) (sats : list value)
         (category satcount : value),
    http_get W (above_url W self lat lng alt search_radius category_id)
      (Some 15)
    = Ok (VDict d) ->
    lookup "above" d = Some (VList sats) ->
    lookup "info" d = Some (VDict info) ->
    lookup "category" info = Some category ->
    lookup "satcount" info = Some satcount ->
    forallb wf_satellite sats = true ->
    exists count rs,
      run (get_objects_above W self lat lng alt search_radius category_id)
      = (Ok (VDict [("category", category); ("count", count);
                    ("satellites", VList rs)]),
         [EvGet (above_url W self lat lng alt search_radius category_id)
            (Some 15)])
      /\ List.length rs = List.length sats
      /\ forall i sat,
           nth_error sats i = Some sat ->
           exists r,
             nth_error rs i = Some r
             /\ py_getitem r "id" = py_getitem sat "satid"
             /\ py_getitem r "name" = py_getitem sat "satname"
             /\ py_getitem r "intl_designator" = py_getitem sat "intDesignator"
             /\ py_getitem r "latitude" = py_getitem sat "satlat"
             /\ py_getitem r "longitude" = py_getitem sat "satlng"
             /\ py_getitem r "altitude_km" = py_getitem sat "satalt"
             /\ (launch_date_unreadable sat ->
                 py_getitem r "launch_date" = Ok VNone).
Proof.
  intros W self lat lng alt search_radius category_id d info sats
         category satcount Hget Hsats Hinfo Hcat Hcount Hwf.
  assert (Hall : Forall (fun p => exists r, satellite_record p = Ok r) sats).
  { apply (forallb_Forall_ok wf_satellite); [|exact Hwf].
    intros p Hp.
    destruct (satellite_record_wf p Hp)
      as (a & b & c & x & y & z & _ & _ & _ & _ & _ & _ & Hr).
    eexists. exact Hr. }
  destruct (above_of_payload_listed d info sats category satcount
              Hsats Hinfo Hcat Hcount Hall) as [rs [Hres Hrs]].
  eexists. exists rs. split.
  - unfold get_objects_above. cbv zeta.
    rewrite run_request_then, Hget, Hres. reflexivity.
  - apply Forall2_pointwise in Hrs. destruct Hrs as [Hlen Hnth].
    split; [exact Hlen|].
    intros i sat Hsat. destruct (Hnth i sat Hsat) as [r [Hr Hrec]].
    destruct (satellite_record_wf sat (wf_nth _ _ _ _ Hwf Hsat))
      as (a & b & c & x & y & z & Ha & Hb & Hc & Hx & Hy & Hz & Hrec').
    exists r. split; [exact Hr|].
    rewrite Hrec' in Hrec. injection Hrec as <-.
    rewrite Ha, Hb, Hc, Hx, Hy, Hz.
    repeat (split; [reflexivity|]).
    intros Hbad. rewrite (launch_date_unreadable_none sat Hbad). reflexivity.
Qed.

Lemma unreadable_launch_date_is_none_witness :
  exists count rs,
    run (get_objects_above (canned_world (Ok above_payload)) demo_client
           (VInt 41) (VInt (-74)) (VInt 10) (VInt 90) (VInt 0))
    = (Ok (VDict [("category", VStr "ANY"); ("count", count);
                  ("satellites", VList rs)]),
       [EvGet
          "https://api.n2yo.com/rest/v1/satellite/above/41/-74/10/90/0/&apiKey=KEY"
          (Some 15)])
    /\ List.length rs = 3%nat
    /\ forall i sat,
         nth_error
           [satellite 1 "WRONG DATE" [("launchDate", VStr "2021-13-40")];
            satellite 2 "NO DATE" [];
            satellite 3 "ZARYA" [("launchDate", VStr "1998-11-20")]] i
         = Some sat ->
         exists r,
           nth_error rs i = Some r
           /\ py_getitem r "id" = py_getitem sat "satid"
           /\ py_getitem r "name" = py_getitem sat "satname"
           /\ py_getitem r "intl_designator" = py_getitem sat "intDesignator"
           /\ py_getitem r "latitude" = py_getitem sat "satlat"
           /\ py_getitem r "longitude" = py_getitem sat "satlng"
           /\ py_getitem r "altitude_km" = py_getitem sat "satalt"
           /\ (launch_date_unreadable sat ->
               py_getitem r "launch_date" = Ok VNone).
Proof.
  apply (unreadable_launch_date_is_none
           (canned_world (Ok above_payload)) demo_client
           (VInt 41) (VInt (-74)) (VInt 10) (VInt 90) (VInt 0)
           [("info", iss_info);
            ("above",
             VList [satellite 1 "WRONG DATE" [("launchDate", VStr "2021-13-40")];
                    satellite 2 "NO DATE" [];
                    satellite 3 "ZARYA" [("launchDate", VStr "1998-11-20")]])]
           [("satid", VInt 25544); ("satname", VStr "SPACE STATION");
            ("transactionscount", VInt 4); ("category", VStr "ANY");
            ("satcount", VInt 7)]
           [satellite 1 "WRONG DATE" [("launchDate", VStr "2021-13-40")];
            satellite 2 "NO DATE" [];
            satellite 3 "ZARYA" [("launchDate", VStr "1998-11-20")]]
           (VStr "ANY") (VInt 7)).
  - reflexivity.
  - reflexivity.
  - reflexivity.
  - reflexivity.
  - reflexivity.
  - vm_compute. reflexivity.
Defined.

(** The launch date "2021-13-40" is refused by [strptime], as are a date
    the calendar does not have and a date followed by more text; a date
    in the form is read, with or without its leading zeros. *)
Example strptime_examples :
  launch_date_unreadable
    (satellite 1 "WRONG DATE" [("launchDate", VStr "2021-13-40")])
  /\ launch_date_unreadable (satellite 2 "NO DATE" [])
  /\ Strptime.strptime_ymd "2021-02-29"
     = Raise (Exn ValueError "day is out of range for month")
  /\ Strptime.strptime_ymd "2021-01-05x"
     = Raise (Exn ValueError "unconverted data remains")
  /\ Strptime.strptime_ymd "1998-11-20"
     = Ok (Datetime (911520000 * PyTime.US_PER_SECOND) Naive)
  /\ Strptime.strptime_ymd "2021-1-5" = Strptime.strptime_ymd "2021-01-05".
Proof.
  repeat split; try reflexivity.
  vm_compute. eexists. reflexivity.
Qed.

(** The whole result for an answer with three satellites: two launch dates
    are [None], the third is read, and every other field is there. *)
Example objects_above_example :
  above_of_payload above_payload
  = Ok (VDict
          [("category", VStr "ANY"); ("count", VInt 7);
           ("satellites",
            VList
              [VDict
                 [("id", VInt 1); ("name", VStr "WRONG DATE");
                  ("intl_designator", VStr "1998-067A");
                  ("launch_date", VNone); ("latitude", VInt 12);
                  ("longitude", VInt 34); ("altitude_km", VInt 420)];
               VDict
                 [("id", VInt 2); ("name", VStr "NO DATE");
                  ("intl_designator", VStr "1998-067A");
                  ("launch_date", VNone); ("latitude", VInt 12);
                  ("longitude", VInt 34); ("altitude_km", VInt 420)];
               VDict
                 [("id", VInt 3); ("name", VStr "ZARYA");
                  ("intl_designator", VStr "1998-067A");
                  ("launch_date",
                   VDatetime (Datetime 911520000000000 Naive));
                  ("latitude", VInt 12); ("longitude", VInt 34);
                  ("altitude_km", VInt 420)]])]).
Proof. vm_compute. reflexivity. Qed.

(** C10.  When the answer lists satellites, the [count] of the result is
    the [satcount] of the answer's [info], whatever that value is, next to
    one record per listed satellite; when the answer has no [above], or an
    empty one, the [count] is 0 and there are no records. *)
Theorem count_is_satcount_of_the_answer :
  forall (W : World) (self : N2YOClient)
         (lat lng alt search_radius category_id : value)
         (d : list (string * value)),
    http_get W (above_url W self lat lng alt search_radius category_id)
      (Some 15)
    = Ok (VDict d) ->
    (forall (info : list (string * value)) (sats : list value)
            (category satcount : value),
        lookup "above" d = Some (VList sats) ->
        sats <> [] ->
        lookup "info" d = Some (VDict info) ->
        lookup "category" info = Some category ->
        lookup "satcount" info = Some satcount ->
        forallb wf_satellite sats = true ->
        exists rs,
          run (get_objects_above W self lat lng alt search_radius category_id)
          = (Ok (VDict [("category", category); ("count", satcount);
                        ("satellites", VList rs)]),
             [EvGet (above_url W self lat lng alt search_radius category_id)
                (Some 15)])
          /\ List.length rs = List.length sats)
    /\ (lookup "above" d = None \/ lookup "above" d = Some (VList []) ->
        lookup "info" d = None
        \/ (exists info, lookup "info" d = Some (VDict info)) ->
        exists category,
          run (get_objects_above W self lat lng alt search_radius category_id)
          = (Ok (VDict [("category", category); ("count", VInt 0);
                        ("satellites", VList [])]),
             [EvGet (above_url W self lat lng alt search_radius category_id)
                (Some 15)])).
Proof.
  intros W self lat lng alt search_radius category_id d Hget.
  split.
  - intros info sats category satcount Hsats Hne Hinfo Hcat Hcount Hwf.
    assert (Hall : Forall (fun p => exists r, satellite_record p = Ok r) sats).
    { apply (forallb_Forall_ok wf_satellite); [|exact Hwf].
      intros p Hp.
      destruct (satellite_record_wf p Hp)
        as (a & b & c & x & y & z & _ & _ & _ & _ & _ & _ & Hr).
      eexists. exact Hr. }
    destruct (above_of_payload_listed d info sats category satcount
                Hsats Hinfo Hcat Hcount Hall) as [rs [Hres Hrs]].
    exists rs. split.
    + unfold get_objects_above. cbv zeta.
      rewrite run_request_then, Hget, Hres.
      destruct sats; [congruence|reflexivity].
    + apply Forall2_pointwise in Hrs. exact (proj1 Hrs).
  - intros Habove Hinfo.
    destruct (above_of_payload_none d Habove Hinfo) as [category Hres].
    exists category. unfold get_objects_above. cbv zeta.
    now rewrite run_request_then, Hget, Hres.
Qed.

(** The answer of the example announces 7 satellites and lists 3: the
    result has the count 7 and 3 records. *)
Lemma count_is_satcount_of_the_answer_witness :
  exists rs,
    run (get_objects_above (canned_world (Ok above_payload)) demo_client
           (VInt 41) (VInt (-74)) (VInt 10) (VInt 90) (VInt 0))
    = (Ok (VDict [("category", VStr "ANY"); ("count", VInt 7);
                  ("satellites", VList rs)]),
       [EvGet
          "https://api.n2yo.com/rest/v1/satellite/above/41/-74/10/90/0/&apiKey=KEY"
          (Some 15)])
    /\ List.length rs = 3%nat.
Proof.
  refine (proj1 (count_is_satcount_of_the_answer
                   (canned_world (Ok above_payload)) demo_client
                   (VInt 41) (VInt (-74)) (VInt 10) (VInt 90) (VInt 0)
                   [("info", iss_info);
                    ("above",
                     VList [satellite 1 "WRONG DATE"
                              [("launchDate", VStr "2021-13-40")];
                            satellite 2 "NO DATE" [];
                            satellite 3 "ZARYA"
                              [("launchDate", VStr "1998-11-20")]])]
                   _)
            [("satid", VInt 25544); ("satname", VStr "SPACE STATION");
             ("transactionscount", VInt 4); ("category", VStr "ANY");
             ("satcount", VInt 7)]
            [satellite 1 "WRONG DATE" [("launchDate", VStr "2021-13-40")];
             satellite 2 "NO DATE" [];
             satellite 3 "ZARYA" [("launchDate", VStr "1998-11-20")]]
            (VStr "ANY") (VInt 7) _ _ _ _ _ _).
  - reflexivity.
  - reflexivity.
  - discriminate.
  - reflexivity.
  - reflexivity.
  - reflexivity.
  - vm_compute. reflexivity.
Defined.

(** ** The order of the lists *)

Lemma py_getitem_ok_inv (items : list (string * value)) (k : string)
    (v : value) :
  py_getitem (VDict items) k = Ok v -> lookup k items = Some v.
Proof.
  unfold py_getitem. destruct (lookup k items); [|discriminate].
  intros H. now injection H as <-.
Qed.

(** C9.  For a well-formed answer, the list in the result of each
    operation has one record per element of the list in the answer, at the
    same position, and the record is the one the operation makes of that
    element alone: nothing is sorted, dropped or merged. *)
Theorem result_lists_follow_the_answer :
  forall (W : World) (self : N2YOClient) (op : operation)
         (d : list (string * value)) (info : value) (ps : list value),
    (forall url timeout, http_get W url timeout = Ok (VDict d)) ->
    admissible op = true ->
    lookup (payload_list_key op) d = Some (VList ps) ->
    lookup "info" d = Some info ->
    has_keys (info_keys op) info = true ->
    forallb (wf_element W op) ps = true ->
    exists res rs url timeout,
      run (call W self op) = (Ok res, [EvGet url timeout])
      /\ py_getitem res (result_list_key op) = Ok (VList rs)
      /\ pointwise (record_of W op) ps rs.
Proof.
  intros W self op d info ps Hget Hadm Hps Hinfo Hkeys Hwf.
  destruct info as [| | | | |?|items|]; try discriminate Hkeys.
  destruct op as [sat_id lat lng alt days threshold conv
                 |sat_id lat lng alt days threshold conv
                 |sat_id lat lng alt seconds
                 |lat lng alt radius category_id];
    cbn [call payload_list_key result_list_key record_of wf_element
         info_keys] in *.
  - (* get_visual_passes *)
    read_keys Hkeys. apply py_getitem_ok_inv in Hkey.
    assert (Hall : Forall (fun p => exists r,
                             visual_pass_record W conv p = Ok r) ps)
      by (apply (forallb_Forall_ok (wf_visual_pass W conv));
          [apply visual_pass_record_wf|exact Hwf]).
    destruct (passes_of_payload_wf _ d items ps _ Hps Hinfo Hkey Hall)
      as [rs [Hres Hrs]].
    unfold get_visual_passes. cbv zeta.
    rewrite run_request_then, Hget, Hres.
    do 4 eexists. split; [reflexivity|]. split; [reflexivity|].
    now apply Forall2_pointwise.
  - (* get_radio_passes *)
    read_keys Hkeys. apply py_getitem_ok_inv in Hkey.
    assert (Hall : Forall (fun p => exists r,
                             radio_pass_record W conv p = Ok r) ps).
    { apply (forallb_Forall_ok (wf_radio_pass W conv)); [|exact Hwf].
      intros p Hp.
      destruct (radio_pass_record_wf W conv p Hp)
        as (? & ? & ? & ? & ? & ? & _ & _ & Hr).
      eexists. exact Hr. }
    destruct (passes_of_payload_wf _ d items ps _ Hps Hinfo Hkey Hall)
      as [rs [Hres Hrs]].
    unfold get_radio_passes. cbv zeta.
    rewrite run_request_then, Hget, Hres.
    do 4 eexists. split; [reflexivity|]. split; [reflexivity|].
    now apply Forall2_pointwise.
  - (* get_positions *)
    read_keys Hkeys.
    apply py_getitem_ok_inv in Hkey, Hkey0, Hkey1.
    assert (Hall : Forall (fun p => exists r, position_record p = Ok r) ps)
      by (apply (forallb_Forall_ok wf_position);
          [apply position_record_wf|exact Hwf]).
    destruct (positions_of_payload_wf d items ps _ _ _
                Hps Hinfo Hkey Hkey0 Hkey1 Hall) as [rs [Hres Hrs]].
    unfold admissible in Hadm. apply andb_prop in Hadm.
    destruct Hadm as [Hargs Hsec].
    unfold get_positions. rewrite Hargs. cbn [negb].
    destruct (py_gt_int seconds 300) as [[|]|]; try discriminate Hsec.
    cbv zeta. rewrite run_request_then, Hget, Hres.
    do 4 eexists. split; [reflexivity|]. split; [reflexivity|].
    now apply Forall2_pointwise.
  - (* get_objects_above *)
    read_keys Hkeys. apply py_getitem_ok_inv in Hkey, Hkey0.
    assert (Hall : Forall (fun p => exists r, satellite_record p = Ok r) ps).
    { apply (forallb_Forall_ok wf_satellite); [|exact Hwf].
      intros p Hp.
      destruct (satellite_record_wf p Hp)
        as (? & ? & ? & ? & ? & ? & _ & _ & _ & _ & _ & _ & Hr).
      eexists. exact Hr. }
    destruct (above_of_payload_listed d items ps _ _
                Hps Hinfo Hkey Hkey0 Hall) as [rs [Hres Hrs]].
    unfold get_objects_above. cbv zeta.
    rewrite run_request_then, Hget, Hres.
    do 4 eexists. split; [reflexivity|]. split; [reflexivity|].
    now apply Forall2_pointwise.
Qed.

Lemma result_lists_follow_the_answer_witness :
  exists res rs url timeout,
    run (call (canned_world (Ok unordered_positions_payload)) demo_client
           (Positions (VInt 25544) (VInt 41) (VInt (-74)) (VInt 10) (VInt 60)))
    = (Ok res, [EvGet url timeout])
    /\ py_getitem res "positions" = Ok (VList rs)
    /\ pointwise position_record
         [position_at 30; position_at 10; position_at 10] rs.
Proof.
  apply (result_lists_follow_the_answer
           (canned_world (Ok unordered_positions_payload)) demo_client
           (Positions (VInt 25544) (VInt 41) (VInt (-74)) (VInt 10) (VInt 60))
           [("info", iss_info);
            ("positions",
             VList [position_at 30; position_at 10; position_at 10])]
           iss_info
           [position_at 30; position_at 10; position_at 10]).
  - intros url timeout. reflexivity.
  - reflexivity.
  - reflexivity.
  - reflexivity.
  - reflexivity.
  - reflexivity.
Defined.

(** The three points come back as they were sent: the later one first, the
    repeated one twice. *)
Example positions_keep_their_order :
  positions_of_payload unordered_positions_payload
  = Ok (VDict
          [("satid", VInt 25544); ("satname", VStr "SPACE STATION");
           ("transactions", VInt 4);
           ("positions",
            VList
              (map (fun t =>
                      VDict [("latitude", VInt 12); ("longitude", VInt 34);
                             ("altitude", VInt 420); ("azimuth", VInt 100);
                             ("elevation", VInt 5); ("ra", VInt 1);
                             ("dec", VInt 2); ("timestamp", VInt t)])
                 [30; 10; 10]))]).
Proof. reflexivity. Qed.

(* ================================================================== *)
(** * Further properties *)

(** ** The requests of a call *)

Lemma log_and_reraise_trace (e : exn) (t : trace) :
  @log_and_reraise value e t = (Raise e, (t ++ logged_lines e)%list).
Proof.
  unfold log_and_reraise, logged_lines, bind, print, raise.
  destruct (is_RequestException e); [reflexivity|].
  destruct (is_ValueError e); [reflexivity|].
  now rewrite app_nil_r.
Qed.

Lemma warn_and_return_none_trace (e : exn) (t : trace) :
  warn_and_return_none e t
  = if is_RequestException e
    then (Ok VNone,
          (t ++ [EvPrint (WARNING_SIGN ++ " API request failed: "
                          ++ exn_msg e)])%list)
    else (Raise e, t).
Proof.
  unfold warn_and_return_none, bind, print, raise, ret.
  destruct (is_RequestException e); reflexivity.
Qed.

Lemma logged_lines_short (e : exn) :
  (List.length (logged_lines e) <= 1)%nat /\ network_calls (logged_lines e) = [].
Proof.
  unfold logged_lines.
  destruct (is_RequestException e); [split; [simpl; lia|reflexivity]|].
  destruct (is_ValueError e); split; simpl; try lia; reflexivity.
Qed.

(** The trace of a request followed by the reading of the answer, under
    the [except] clauses of [get_tle] and [get_positions]. *)
Lemma reraising_trace (W : World) (url : string) (timeout : option Z)
    (f : value -> outcome value) :
  exists prints,
    snd (run (try_except
                (data <- request_json W url timeout ;; lift (f data))%M
                log_and_reraise))
    = (EvGet url timeout :: prints)%list
    /\ (List.length prints <= 1)%nat /\ network_calls prints = [].
Proof.
  rewrite run_request_then.
  destruct (http_get W url timeout) as [data|e];
    [destruct (f data) as [r|e]|];
    try (exists []; repeat split; simpl; lia);
    rewrite log_and_reraise_trace; exists (logged_lines e);
    (split; [reflexivity|apply logged_lines_short]).
Qed.

(** The same under the [except] clause of the pass and overhead
    operations. *)
Lemma warning_trace (W : World) (url : string) (timeout : option Z)
    (f : value -> outcome value) :
  exists prints,
    snd (run (try_except
                (data <- request_json W url timeout ;; lift (f data))%M
                warn_and_return_none))
    = (EvGet url timeout :: prints)%list
    /\ (List.length prints <= 1)%nat /\ network_calls prints = [].
Proof.
  rewrite run_request_then.
  destruct (http_get W url timeout) as [data|e];
    [destruct (f data) as [r|e]|];
    try (exists []; repeat split; simpl; lia);
    rewrite warn_and_return_none_trace;
    destruct (is_RequestException e);
    eexists; (split; [reflexivity|split; [simpl; lia|reflexivity]]).
Qed.

Lemma invoke_trace (W : World) (self : N2YOClient) (c : api_call) :
  passes_checks c = true ->
  exists prints,
    snd (run (invoke W self c)) = (request_of W self c :: prints)%list
    /\ (List.length prints <= 1)%nat /\ network_calls prints = [].
Proof.
  intros Hc.
  destruct c as [sat_id|[sat_id lat lng alt days threshold conv
                        |sat_id lat lng alt days threshold conv
                        |sat_id lat lng alt seconds
                        |lat lng alt radius category_id]];
    cbn [invoke call request_of passes_checks] in *.
  - unfold get_tle. rewrite Hc. cbn [negb]. cbv zeta. apply reraising_trace.
  - unfold get_visual_passes. cbv zeta. apply warning_trace.
  - unfold get_radio_passes. cbv zeta. apply warning_trace.
  - unfold admissible in Hc. apply andb_prop in Hc. destruct Hc as [Hargs Hsec].
    unfold get_positions. rewrite Hargs. cbn [negb].
    destruct (py_gt_int seconds 300) as [[|]|]; try discriminate Hsec.
    cbv zeta. apply reraising_trace.
  - unfold get_objects_above. cbv zeta. apply warning_trace.
Qed.

Lemma invoke_refused (W : World) (self : N2YOClient) (c : api_call) :
  passes_checks c = false ->
  exists e, run (invoke W self c) = (Raise e, []).
Proof.
  intros Hc.
  destruct c as [sat_id|[sat_id lat lng alt days threshold conv
                        |sat_id lat lng alt days threshold conv
                        |sat_id lat lng alt seconds
                        |lat lng alt radius category_id]];
    cbn [invoke call passes_checks admissible] in *; try discriminate Hc.
  - unfold get_tle. rewrite Hc. eexists. reflexivity.
  - unfold get_positions.
    destruct (py_all [sat_id; lat; lng]); cbn [negb andb] in *;
      [|eexists; reflexivity].
    destruct (py_gt_int seconds 300) as [[|]|e];
      try discriminate Hc; eexists; reflexivity.
Qed.

(** X1.  A call sends one request, the one of its endpoint, when its
    arguments pass the checks of the client, and none when they do not, in
    which case it raises and prints nothing.  Whatever the service answers,
    nothing is sent a second time, and at most one line is printed, after
    the request. *)
Theorem one_request_per_call :
  forall (W : World) (self : N2YOClient) (c : api_call),
  exists prints,
    snd (run (invoke W self c))
    = ((if passes_checks c then [request_of W self c] else []) ++ prints)%list
    /\ (List.length prints <= 1)%nat
    /\ network_calls prints = []
    /\ (passes_checks c = false ->
        prints = [] /\ exists e, fst (run (invoke W self c)) = Raise e).
Proof.
  intros W self c. destruct (passes_checks c) eqn:Hc.
  - destruct (invoke_trace W self c Hc) as (prints & Ht & Hlen & Hnet).
    exists prints. repeat split; try assumption; discriminate.
  - destruct (invoke_refused W self c Hc) as [e He].
    exists []. rewrite He. repeat split; simpl; try lia.
    now exists e.
Qed.

(** ** Where the requests go *)

Lemma append_assoc (a b c : string) : (a ++ b) ++ c = a ++ (b ++ c).
Proof. induction a as [|x a IH]; simpl; [reflexivity|now rewrite IH]. Qed.

Lemma init_inv (key : value) (self : N2YOClient) :
  N2YOClient_init key = Ok self ->
  truthy key = true
  /\ self = {| api_key := key;
               base_url := "https://api.n2yo.com/rest/v1/satellite" |}.
Proof.
  unfold N2YOClient_init. destruct (truthy key); cbn [negb]; [|discriminate].
  intros H. injection H as <-. split; reflexivity.
Qed.

Lemma not_sent_among_prints (prints : trace) (url : string)
    (timeout : option Z) :
  network_calls prints = [] -> ~ In (EvGet url timeout) prints.
Proof.
  intros Hnet Hin.
  assert (H : In (EvGet url timeout) (network_calls prints))
    by (apply filter_In; split; [exact Hin|reflexivity]).
  rewrite Hnet in H. exact H.
Qed.

(** Every request a call sends is the request of its endpoint. *)
Lemma sent_is_request_of (W : World) (self : N2YOClient) (c : api_call)
    (url : string) (timeout : option Z) :
  In (EvGet url timeout) (snd (run (invoke W self c))) ->
  passes_checks c = true /\ EvGet url timeout = request_of W self c.
Proof.
  intros Hin. destruct (passes_checks c) eqn:Hc.
  - split; [reflexivity|].
    destruct (invoke_trace W self c Hc) as (prints & Ht & _ & Hnet).
    rewrite Ht in Hin. destruct Hin as [Heq|Hin]; [now symmetry|].
    now apply not_sent_among_prints in Hin.
  - destruct (invoke_refused W self c Hc) as [e He].
    rewrite He in Hin. destruct Hin.
Qed.

(** X2.  Every request of a client built by [N2YOClient] goes to the REST
    host of the service and ends with the key the client was built with,
    as [&apiKey=<key>]. *)
Theorem requests_carry_the_key :
  forall (W : World) (key : value) (self : N2YOClient) (c : api_call)
         (url : string) (timeout : option Z),
    N2YOClient_init key = Ok self ->
    In (EvGet url timeout) (snd (run (invoke W self c))) ->
    exists path,
      url = "https://api.n2yo.com/rest/v1/satellite/" ++ path
            ++ "&apiKey=" ++ py_format W key.
Proof.
  intros W key self c url timeout Hinit Hin.
  apply init_inv in Hinit. destruct Hinit as [_ ->].
  apply sent_is_request_of in Hin. destruct Hin as [_ Heq].
  destruct c as [sat_id|[sat_id lat lng alt days threshold conv
                        |sat_id lat lng alt days threshold conv
                        |sat_id lat lng alt seconds
                        |lat lng alt radius category_id]];
    cbn [request_of] in Heq; injection Heq as -> _.
  - exists ("tle/" ++ py_format W sat_id).
    unfold tle_url. cbn [base_url api_key append]. reflexivity.
  - exists ("visualpasses/" ++ py_format W sat_id ++ "/" ++ py_format W lat
            ++ "/" ++ py_format W lng ++ "/" ++ py_format W alt
            ++ "/" ++ py_format W days ++ "/" ++ py_format W threshold ++ "/").
    unfold passes_url. cbn [base_url api_key].
    rewrite !append_assoc. reflexivity.
  - exists ("radiopasses/" ++ py_format W sat_id ++ "/" ++ py_format W lat
            ++ "/" ++ py_format W lng ++ "/" ++ py_format W alt
            ++ "/" ++ py_format W days ++ "/" ++ py_format W threshold ++ "/").
    unfold passes_url. cbn [base_url api_key].
    rewrite !append_assoc. reflexivity.
  - exists ("positions/" ++ py_format W sat_id ++ "/" ++ py_format W lat
            ++ "/" ++ py_format W lng ++ "/" ++ py_format W alt
            ++ "/" ++ py_format W seconds ++ "/").
    unfold positions_url. cbn [base_url api_key].
    rewrite !append_assoc. reflexivity.
  - exists ("above/" ++ py_format W lat ++ "/" ++ py_format W lng
            ++ "/" ++ py_format W alt ++ "/" ++ py_format W radius
            ++ "/" ++ py_format W category_id ++ "/").
    unfold above_url. cbn [base_url api_key].
    rewrite !append_assoc. reflexivity.
Qed.

Lemma requests_carry_the_key_witness :
  exists path,
    "https://api.n2yo.com/rest/v1/satellite/tle/25544&apiKey=KEY"
    = "https://api.n2yo.com/rest/v1/satellite/" ++ path
      ++ "&apiKey=" ++ py_format (canned_world (Ok tle_payload)) (VStr "KEY").
Proof.
  apply (requests_carry_the_key (canned_world (Ok tle_payload)) (VStr "KEY")
           demo_client (CallTle (VInt 25544))
           "https://api.n2yo.com/rest/v1/satellite/tle/25544&apiKey=KEY" None).
  - reflexivity.
  - simpl. left. reflexivity.
Defined.

(** ** When the request fails *)

(** X3.  Whatever exception the transport raises, [get_tle] and
    [get_positions] raise that same exception: it is never swallowed nor
    replaced.  One line is printed before, for a [RequestException] or a
    [ValueError], and no line for any other exception. *)
Theorem transport_exception_is_raised_again :
  forall (W : World) (self : N2YOClient) (e : exn)
         (sat_id observer_lat observer_lng observer_alt seconds : value),
    (forall url timeout, http_get W url timeout = Raise e) ->
    truthy sat_id = true ->
    run (get_tle W self sat_id)
    = (Raise e, (EvGet (tle_url W self sat_id) None :: logged_lines e)%list)
    /\ (admissible
          (Positions sat_id observer_lat observer_lng observer_alt seconds)
        = true ->
        run (get_positions W self sat_id observer_lat observer_lng
               observer_alt seconds)
        = (Raise e,
           (EvGet (positions_url W self sat_id observer_lat observer_lng
                     observer_alt seconds) None :: logged_lines e)%list)).
Proof.
  intros W self e sat_id lat lng alt seconds Hfail Hsat. split.
  - unfold get_tle. rewrite Hsat. cbn [negb]. cbv zeta.
    now rewrite run_request_then, Hfail, log_and_reraise_trace.
  - intros Hadm. unfold admissible in Hadm.
    apply andb_prop in Hadm. destruct Hadm as [Hargs Hsec].
    unfold get_positions. rewrite Hargs. cbn [negb].
    destruct (py_gt_int seconds 300) as [[|]|]; try discriminate Hsec.
    cbv zeta.
    now rewrite run_request_then, Hfail, log_and_reraise_trace.
Qed.

Lemma transport_exception_is_raised_again_witness :
  let e := Exn OtherException "interrupted" in
  let w := canned_world (Raise e) in
  run (get_tle w demo_client (VInt 25544))
  = (Raise e, (EvGet (tle_url w demo_client (VInt 25544)) None
                 :: logged_lines e)%list)
  /\ (admissible (Positions (VInt 25544) (VInt 41) (VInt (-74)) (VInt 10)
                    (VInt 60)) = true ->
      run (get_positions w demo_client (VInt 25544) (VInt 41) (VInt (-74))
             (VInt 10) (VInt 60))
      = (Raise e,
         (EvGet (positions_url w demo_client (VInt 25544) (VInt 41)
                   (VInt (-74)) (VInt 10) (VInt 60)) None
            :: logged_lines e)%list)).
Proof.
  apply (transport_exception_is_raised_again
           (canned_world (Raise (Exn OtherException "interrupted")))
           demo_client (Exn OtherException "interrupted")
           (VInt 25544) (VInt 41) (VInt (-74)) (VInt 10) (VInt 60)).
  - intros url timeout. reflexivity.
  - reflexivity.
Defined.

(** X4.  When the transport raises, the pass and overhead operations
    return [None], after one warning, exactly when the exception is a
    [RequestException]; any other exception is raised to the caller, with
    nothing printed. *)
Theorem none_only_for_request_exceptions :
  forall (W : World) (self : N2YOClient) (op : operation) (e : exn),
    (forall url timeout, http_get W url timeout = Raise e) ->
    yields_none_on_failure op = true ->
    run (call W self op)
    = if is_RequestException e
      then (Ok VNone,
            [request_of W self (CallList op);
             EvPrint (WARNING_SIGN ++ " API request failed: " ++ exn_msg e)])
      else (Raise e, [request_of W self (CallList op)]).
Proof.
  intros W self op e Hfail Hop.
  destruct op as [sat_id lat lng alt days threshold conv
                 |sat_id lat lng alt days threshold conv
                 |sat_id lat lng alt seconds
                 |lat lng alt radius category_id];
    try discriminate Hop; cbn [call request_of];
    unfold get_visual_passes, get_radio_passes, get_objects_above; cbv zeta;
    rewrite run_request_then, Hfail, warn_and_return_none_trace;
    destruct (is_RequestException e); reflexivity.
Qed.

Lemma none_only_for_request_exceptions_witness :
  run (call (canned_world (Raise (Exn ValueError "no JSON"))) demo_client
         (ObjectsAbove (VInt 41) (VInt (-74)) (VInt 10) (VInt 90) (VInt 0)))
  = (Raise (Exn ValueError "no JSON"),
     [EvGet
        "https://api.n2yo.com/rest/v1/satellite/above/41/-74/10/90/0/&apiKey=KEY"
        (Some 15)]).
Proof.
  apply (none_only_for_request_exceptions
           (canned_world (Raise (Exn ValueError "no JSON"))) demo_client
           (ObjectsAbove (VInt 41) (VInt (-74)) (VInt 10) (VInt 90) (VInt 0))
           (Exn ValueError "no JSON")).
  - intros url timeout. reflexivity.
  - reflexivity.
Defined.

(** ** Answers of the wrong shape *)

(** X5.  An answer that is an object without the [tle] key makes
    [get_tle] raise its "field missing" [ValueError], printed as a data
    error; [get_positions] does the same for an answer without
    [positions]. *)
Theorem missing_field_is_a_data_error :
  forall (W : World) (self : N2YOClient) (d : list (string * value))
         (sat_id observer_lat observer_lng observer_alt seconds : value),
    (forall url timeout, http_get W url timeout = Ok (VDict d)) ->
    truthy sat_id = true ->
    (lookup "tle" d = None ->
     let msg := "Invalid response: 'tle' field missing from API response." in
     run (get_tle W self sat_id)
     = (Raise (Exn ValueError msg),
        [EvGet (tle_url W self sat_id) None;
         EvPrint ("Data error: " ++ msg)]))
    /\ (lookup "positions" d = None ->
        admissible
          (Positions sat_id observer_lat observer_lng observer_alt seconds)
        = true ->
        let msg :=
          "Invalid response: 'positions' field missing from API response." in
        run (get_positions W self sat_id observer_lat observer_lng
               observer_alt seconds)
        = (Raise (Exn ValueError msg),
           [EvGet (positions_url W self sat_id observer_lat observer_lng
                     observer_alt seconds) None;
            EvPrint ("Data error: " ++ msg)])).
Proof.
  intros W self d sat_id lat lng alt seconds Hget Hsat. split.
  - intros Htle msg. unfold get_tle. rewrite Hsat. cbn [negb]. cbv zeta.
    rewrite run_request_then, Hget.
    unfold tle_of_payload, py_contains, obind. rewrite Htle. reflexivity.
  - intros Hpos Hadm msg. unfold admissible in Hadm.
    apply andb_prop in Hadm. destruct Hadm as [Hargs Hsec].
    unfold get_positions. rewrite Hargs. cbn [negb].
    destruct (py_gt_int seconds 300) as [[|]|]; try discriminate Hsec.
    cbv zeta. rewrite run_request_then, Hget.
    unfold positions_of_payload, py_contains, obind. rewrite Hpos. reflexivity.
Qed.

Lemma missing_field_is_a_data_error_witness :
  let w := canned_world (Ok (VDict [("info", iss_info)])) in
  (lookup "tle" [("info", iss_info)] = None ->
   let msg := "Invalid response: 'tle' field missing from API response." in
   run (get_tle w demo_client (VInt 25544))
   = (Raise (Exn ValueError msg),
      [EvGet (tle_url w demo_client (VInt 25544)) None;
       EvPrint ("Data error: " ++ msg)]))
  /\ (lookup "positions" [("info", iss_info)] = None ->
      admissible (Positions (VInt 25544) (VInt 41) (VInt (-74)) (VInt 10)
                    (VInt 60)) = true ->
      let msg :=
        "Invalid response: 'positions' field missing from API response." in
      run (get_positions w demo_client (VInt 25544) (VInt 41) (VInt (-74))
             (VInt 10) (VInt 60))
      = (Raise (Exn ValueError msg),
         [EvGet (positions_url w demo_client (VInt 25544) (VInt 41)
                   (VInt (-74)) (VInt 10) (VInt 60)) None;
          EvPrint ("Data error: " ++ msg)])).
Proof.
  apply (missing_field_is_a_data_error
           (canned_world (Ok (VDict [("info", iss_info)]))) demo_client
           [("info", iss_info)]
           (VInt 25544) (VInt 41) (VInt (-74)) (VInt 10) (VInt 60)).
  - intros url timeout. reflexivity.
  - reflexivity.
Defined.

(** X6.  An answer with its element set but without [info] makes [get_tle]
    raise a [KeyError] that no [except] clause of the client handles:
    nothing is printed.  The pass operations, which name the satellite
    ["Unknown"] when an answer without passes has no [info], raise the same
    [KeyError] when passes are listed. *)
Theorem missing_info_is_a_key_error :
  forall (W : World) (self : N2YOClient) (d : list (string * value))
         (sat_id lat lng alt days threshold : value) (conv : bool),
    (forall url timeout, http_get W url timeout = Ok (VDict d)) ->
    truthy sat_id = true ->
    lookup "info" d = None ->
    ((exists raw, lookup "tle" d = Some (VStr raw)) ->
     run (get_tle W self sat_id)
     = (Raise (Exn KeyError "info"), [EvGet (tle_url W self sat_id) None]))
    /\ (forall ps,
          lookup "passes" d = Some (VList ps) ->
          ps <> [] ->
          forallb (wf_visual_pass W conv) ps = true ->
          run (get_visual_passes W self sat_id lat lng alt days threshold conv)
          = (Raise (Exn KeyError "info"),
             [EvGet (passes_url W self "visualpasses" sat_id lat lng alt
                       days threshold) (Some 10)])).
Proof.
  intros W self d sat_id lat lng alt days threshold conv Hget Hsat Hinfo.
  split.
  - intros [raw Htle]. unfold get_tle. rewrite Hsat. cbn [negb]. cbv zeta.
    rewrite run_request_then, Hget.
    unfold tle_of_payload, py_contains, py_getitem, py_split_crlf, obind.
    rewrite Htle, Hinfo. reflexivity.
  - intros ps Hps Hne Hwf.
    assert (Hall : Forall (fun p => exists r,
                             visual_pass_record W conv p = Ok r) ps)
      by (apply (forallb_Forall_ok (wf_visual_pass W conv));
          [apply visual_pass_record_wf|exact Hwf]).
    destruct (collect_total _ ps Hall) as [rs Hrs].
    unfold get_visual_passes. cbv zeta. rewrite run_request_then, Hget.
    unfold passes_of_payload, missing_or_empty, py_contains, py_getitem,
      py_iter, obind.
    rewrite Hps, Hinfo. cbn [negb].
    destruct ps as [|p rest]; [congruence|].
    cbn [truthy negb]. rewrite Hrs. reflexivity.
Qed.

Lemma missing_info_is_a_key_error_witness :
  let d := [("tle", VStr "LINE1"); ("passes", VList [visual_pass])] in
  let w := canned_world (Ok (VDict d)) in
  ((exists raw, lookup "tle" d = Some (VStr raw)) ->
   run (get_tle w demo_client (VInt 25544))
   = (Raise (Exn KeyError "info"),
      [EvGet (tle_url w demo_client (VInt 25544)) None]))
  /\ (forall ps,
        lookup "passes" d = Some (VList ps) ->
        ps <> [] ->
        forallb (wf_visual_pass w false) ps = true ->
        run (get_visual_passes w demo_client (VInt 25544) (VInt 41)
               (VInt (-74)) (VInt 10) (VInt 2) (VInt 60) false)
        = (Raise (Exn KeyError "info"),
           [EvGet (passes_url w demo_client "visualpasses" (VInt 25544)
                     (VInt 41) (VInt (-74)) (VInt 10) (VInt 2) (VInt 60))
              (Some 10)])).
Proof.
  apply (missing_info_is_a_key_error
           (canned_world
              (Ok (VDict [("tle", VStr "LINE1");
                          ("passes", VList [visual_pass])])))
           demo_client
           [("tle", VStr "LINE1"); ("passes", VList [visual_pass])]
           (VInt 25544) (VInt 41) (VInt (-74)) (VInt 10) (VInt 2) (VInt 60)
           false).
  - intros url timeout. reflexivity.
  - reflexivity.
  - reflexivity.
Defined.

(** ** Answers that list nothing *)

(** X7.  When the answer has no [passes], or a falsy value there ([null],
    an empty list), [get_radio_passes] returns a result without passes, named
    after [info.satname] when the answer has it and ["Unknown"] otherwise:
    an empty result, not [None]. *)
Theorem radio_passes_empty_when_none_listed :
  forall (W : World) (self : N2YOClient)
         (sat_id lat lng alt days min_elevation : value)
         (convert_to_local : bool) (d : list (string * value)),
    http_get W (passes_url W self "radiopasses" sat_id lat lng alt days
                  min_elevation) (Some 10)
    = Ok (VDict d) ->
    nothing_listed "passes" d ->
    lookup "info" d = None
    \/ (exists info, lookup "info" d = Some (VDict info)) ->
    run (get_radio_passes W self sat_id lat lng alt days min_elevation
           convert_to_local)
    = (Ok (VDict [("satellite", payload_satname_or_unknown d);
                  ("passes", VList [])]),
       [EvGet (passes_url W self "radiopasses" sat_id lat lng alt days
                 min_elevation) (Some 10)]).
Proof.
  intros W self sat_id lat lng alt days min_elevation conv d
         Hget Hnone Hinfo.
  unfold get_radio_passes. cbv zeta. rewrite run_request_then, Hget.
  unfold nothing_listed in Hnone.
  unfold passes_of_payload, missing_or_empty, satname_or_unknown,
    payload_satname_or_unknown, py_contains, py_getitem, py_get, obind.
  destruct (lookup "passes" d) as [v|]; cbn [negb]; [rewrite Hnone|];
    cbn [negb];
    destruct Hinfo as [Hi|[info Hi]]; rewrite Hi; try reflexivity;
    destruct (lookup "satname" info); reflexivity.
Qed.

Lemma radio_passes_empty_when_none_listed_witness :
  let d := [("info", VDict [("satid", VInt 25544)]); ("passes", VNone)] in
  run (get_radio_passes (canned_world (Ok (VDict d))) demo_client
         (VInt 25544) (VInt 41) (VInt (-74)) (VInt 10) (VInt 2) (VInt 30)
         false)
  = (Ok (VDict [("satellite", VStr "Unknown"); ("passes", VList [])]),
     [EvGet
        "https://api.n2yo.com/rest/v1/satellite/radiopasses/25544/41/-74/10/2/30/&apiKey=KEY"
        (Some 10)]).
Proof.
  apply (radio_passes_empty_when_none_listed
           (canned_world
              (Ok (VDict [("info", VDict [("satid", VInt 25544)]);
                          ("passes", VNone)])))
           demo_client
           (VInt 25544) (VInt 41) (VInt (-74)) (VInt 10) (VInt 2) (VInt 30)
           false
           [("info", VDict [("satid", VInt 25544)]); ("passes", VNone)]).
  - reflexivity.
  - reflexivity.
  - right. eexists. reflexivity.
Defined.

(** X8.  When the answer has no [above], or a falsy value there,
    [get_objects_above] returns the count 0 and no satellites under the
    category of the answer's [info], or ["Unknown"] when the answer has
    none. *)
Theorem objects_above_empty_when_none_listed :
  forall (W : World) (self : N2YOClient)
         (lat lng alt search_radius category_id : value)
         (d : list (string * value)),
    http_get W (above_url W self lat lng alt search_radius category_id)
      (Some 15)
    = Ok (VDict d) ->
    nothing_listed "above" d ->
    lookup "info" d = None
    \/ (exists info, lookup "info" d = Some (VDict info)) ->
    run (get_objects_above W self lat lng alt search_radius category_id)
    = (Ok (VDict [("category", payload_category_or_unknown d);
                  ("count", VInt 0);
                  ("satellites", VList [])]),
       [EvGet (above_url W self lat lng alt search_radius category_id)
          (Some 15)]).
Proof.
  intros W self lat lng alt search_radius category_id d Hget Hnone Hinfo.
  unfold get_objects_above. cbv zeta. rewrite run_request_then, Hget.
  unfold nothing_listed in Hnone.
  unfold above_of_payload, missing_or_empty, payload_category_or_unknown,
    py_contains, py_getitem, py_get, obind.
  destruct (lookup "above" d) as [v|]; cbn [negb]; [rewrite Hnone|];
    cbn [negb];
    destruct Hinfo as [Hi|[info Hi]]; rewrite Hi; try reflexivity;
    destruct (lookup "category" info); reflexivity.
Qed.

Lemma objects_above_empty_when_none_listed_witness :
  run (get_objects_above (canned_world (Ok (VDict [("above", VList [])])))
         demo_client (VInt 41) (VInt (-74)) (VInt 10) (VInt 90) (VInt 0))
  = (Ok (VDict [("category", VStr "Unknown"); ("count", VInt 0);
                ("satellites", VList [])]),
     [EvGet
        "https://api.n2yo.com/rest/v1/satellite/above/41/-74/10/90/0/&apiKey=KEY"
        (Some 15)]).
Proof.
  apply (objects_above_empty_when_none_listed
           (canned_world (Ok (VDict [("above", VList [])]))) demo_client
           (VInt 41) (VInt (-74)) (VInt 10) (VInt 90) (VInt 0)
           [("above", VList [])]).
  - reflexivity.
  - reflexivity.
  - left. reflexivity.
Defined.

(** ** The elements a loop accepts *)

(** Looks for the key [k] of the element [items] in a goal about a record:
    where the key is missing the record is the [KeyError] of that key. *)
Ltac missing_key H items k :=
  let v := fresh "v" in
  let Hk := fresh "Hk" in
  destruct (lookup k items) as [v|] eqn:Hk;
  [cbn [andb] in H
  |eexists; split; [reflexivity|exists k; split; [reflexivity|exact Hk]]].

(** X9.  [get_positions] makes a record of a point exactly when the point
    is an object with its seven required fields; the altitude is copied
    when the point has one and is [None] when it has not.  A point without
    a required field is a [KeyError] naming a missing field, and a point
    that is not an object is a [TypeError]. *)
Theorem position_record_domain :
  forall p : value,
    (wf_position p = true ->
     exists r,
       position_record p = Ok r
       /\ py_getitem r "altitude" = py_get_opt p "sataltitude")
    /\ (wf_position p = false ->
        exists e,
          position_record p = Raise e
          /\ match p with
             | VDict items => exists k, e = Exn KeyError k /\ lookup k items = None
             | _ => exn_cls e = TypeError
             end).
Proof.
  intros p. split.
  - destruct p as [| | | | |?|items|]; try discriminate.
    unfold wf_position. intros H. read_keys H.
    unfold position_record, py_get_opt, py_get. run_getitems.
    eexists. split; reflexivity.
  - intros H.
    destruct p as [| | | | |?|items|];
      try (eexists; split; reflexivity).
    unfold wf_position, has_keys, has_key in H. cbn [forallb] in H.
    unfold position_record, py_getitem, py_get_opt, py_get, obind.
    missing_key H items "satlatitude".
    missing_key H items "satlongitude".
    destruct (lookup "sataltitude" items).
    + missing_key H items "azimuth". missing_key H items "elevation".
      missing_key H items "ra". missing_key H items "dec".
      missing_key H items "timestamp". discriminate H.
    + missing_key H items "azimuth". missing_key H items "elevation".
      missing_key H items "ra". missing_key H items "dec".
      missing_key H items "timestamp". discriminate H.
Qed.

(** X10.  [get_objects_above] makes a record of a satellite exactly when
    the satellite is an object with its six copied fields: the launch date,
    present or not, readable or not, never decides it.  A satellite
    without one of the six is a [KeyError] naming a missing field, and one
    that is not an object is a [TypeError]. *)
Theorem satellite_record_domain :
  forall sat : value,
    (wf_satellite sat = true -> exists r, satellite_record sat = Ok r)
    /\ (wf_satellite sat = false ->
        exists e,
          satellite_record sat = Raise e
          /\ match sat with
             | VDict items => exists k, e = Exn KeyError k /\ lookup k items = None
             | _ => exn_cls e = TypeError
             end).
Proof.
  intros sat. split.
  - intros H.
    destruct (satellite_record_wf sat H)
      as (? & ? & ? & ? & ? & ? & _ & _ & _ & _ & _ & _ & Hr).
    eexists. exact Hr.
  - intros H.
    destruct sat as [| | | | |?|items|];
      try (eexists; split; reflexivity).
    unfold wf_satellite, has_keys, has_key in H. cbn [forallb] in H.
    unfold satellite_record. cbv zeta.
    unfold py_getitem at 1 2 3 4 5 6. unfold obind.
    missing_key H items "satid". missing_key H items "satname".
    missing_key H items "intDesignator". missing_key H items "satlat".
    missing_key H items "satlng". missing_key H items "satalt".
    discriminate H.
Qed.

(** ** All or nothing *)

Lemma collect_fails (body : value -> outcome value)
    (good rest : list value) (bad : value) (e : exn) (acc : list value) :
  Forall (fun p => exists r, body p = Ok r) good ->
  body bad = Raise e ->
  collect body (good ++ bad :: rest) acc = Raise e.
Proof.
  intros Hgood Hbad. revert acc.
  induction Hgood as [|p good [r Hr] _ IH]; intros acc; simpl.
  - now rewrite Hbad.
  - rewrite Hr. apply IH.
Qed.

Lemma record_of_wf (W : World) (op : operation) (p : value) :
  wf_element W op p = true -> exists r, record_of W op p = Ok r.
Proof.
  destruct op; cbn [wf_element record_of]; intros H.
  - now apply visual_pass_record_wf.
  - destruct (radio_pass_record_wf _ _ _ H)
      as (? & ? & ? & ? & ? & ? & _ & _ & Hr).
    eexists. exact Hr.
  - now apply position_record_wf.
  - destruct (satellite_record_wf _ H)
      as (? & ? & ? & ? & ? & ? & _ & _ & _ & _ & _ & _ & Hr).
    eexists. exact Hr.
Qed.

Lemma truthy_list_with (good rest : list value) (bad : value) :
  truthy (VList (good ++ bad :: rest)) = true.
Proof. destruct good; reflexivity. Qed.

(** X11.  One element the loop cannot read fails the whole call: the
    exception of the first such element is raised and no partial list is
    returned, however many elements before it were read. *)
Theorem one_bad_element_fails_the_call :
  forall (W : World) (self : N2YOClient) (op : operation)
         (d : list (string * value)) (good rest : list value) (bad : value)
         (e : exn),
    (forall url timeout, http_get W url timeout = Ok (VDict d)) ->
    admissible op = true ->
    lookup (payload_list_key op) d = Some (VList (good ++ bad :: rest)) ->
    forallb (wf_element W op) good = true ->
    record_of W op bad = Raise e ->
    is_RequestException e = false ->
    fst (run (call W self op)) = Raise e.
Proof.
  intros W self op d good rest bad e Hget Hadm Hps Hgood Hbad He.
  pose proof (forallb_Forall_ok _ _ good (record_of_wf W op) Hgood) as Hall.
  pose proof (fun acc => collect_fails (record_of W op) good rest bad e acc
                           Hall Hbad) as Hloop.
  destruct op as [sat_id lat lng alt days threshold conv
                 |sat_id lat lng alt days threshold conv
                 |sat_id lat lng alt seconds
                 |lat lng alt radius category_id];
    cbn [call payload_list_key record_of] in *.
  - unfold get_visual_passes. cbv zeta. rewrite run_request_then, Hget.
    unfold passes_of_payload, missing_or_empty, py_contains, py_getitem,
      py_iter, obind.
    rewrite Hps. cbn [negb]. rewrite truthy_list_with. cbn [negb].
    rewrite Hloop, warn_and_return_none_trace, He. reflexivity.
  - unfold get_radio_passes. cbv zeta. rewrite run_request_then, Hget.
    unfold passes_of_payload, missing_or_empty, py_contains, py_getitem,
      py_iter, obind.
    rewrite Hps. cbn [negb]. rewrite truthy_list_with. cbn [negb].
    rewrite Hloop, warn_and_return_none_trace, He. reflexivity.
  - unfold admissible in Hadm. apply andb_prop in Hadm.
    destruct Hadm as [Hargs Hsec].
    unfold get_positions. rewrite Hargs. cbn [negb].
    destruct (py_gt_int seconds 300) as [[|]|]; try discriminate Hsec.
    cbv zeta. rewrite run_request_then, Hget.
    unfold positions_of_payload, py_contains, py_getitem, py_iter, obind.
    rewrite Hps. cbn [negb].
    rewrite Hloop, log_and_reraise_trace. reflexivity.
  - unfold get_objects_above. cbv zeta. rewrite run_request_then, Hget.
    unfold above_of_payload, missing_or_empty, py_contains, py_getitem,
      py_iter, obind.
    rewrite Hps. cbn [negb]. rewrite truthy_list_with. cbn [negb].
    rewrite Hloop, warn_and_return_none_trace, He. reflexivity.
Qed.

Lemma one_bad_element_fails_the_call_witness :
  let bad := VDict [("satlatitude", VInt 12); ("satlongitude", VInt 34)] in
  let d := [("info", iss_info);
            ("positions", VList [position_at 10; bad; position_at 30])] in
  fst (run (call (canned_world (Ok (VDict d))) demo_client
              (Positions (VInt 25544) (VInt 41) (VInt (-74)) (VInt 10)
                 (VInt 60))))
  = Raise (Exn KeyError "azimuth").
Proof.
  apply (one_bad_element_fails_the_call
           (canned_world
              (Ok (VDict
                     [("info", iss_info);
                      ("positions",
                       VList [position_at 10;
                              VDict [("satlatitude", VInt 12);
                                     ("satlongitude", VInt 34)];
                              position_at 30])])))
           demo_client
           (Positions (VInt 25544) (VInt 41) (VInt (-74)) (VInt 10) (VInt 60))
           [("info", iss_info);
            ("positions",
             VList [position_at 10;
                    VDict [("satlatitude", VInt 12); ("satlongitude", VInt 34)];
                    position_at 30])]
           [position_at 10] [position_at 30]
           (VDict [("satlatitude", VInt 12); ("satlongitude", VInt 34)])
           (Exn KeyError "azimuth")).
  - intros url timeout. reflexivity.
  - reflexivity.
  - reflexivity.
  - reflexivity.
  - reflexivity.
  - reflexivity.
Defined.

(** ** The records of the passes *)

(** X12.  The record of a visual pass holds the start and the end of the
    pass as [datetime]s of those epoch seconds and copies the other five
    fields; in particular [duration_sec] is the [duration] of the answer as
    it came, which the client does not compare with the two moments. *)
Theorem visual_pass_record_copies_duration :
  forall (W : World) (convert_to_local : bool) (p : value),
    wf_visual_pass W convert_to_local p = true ->
    exists r s e,
      visual_pass_record W convert_to_local p = Ok r
      /\ int_field "startUTC" p = Some s
      /\ int_field "endUTC" p = Some e
      /\ py_getitem r "start_time"
         = Ok (VDatetime (stamp W convert_to_local s))
      /\ py_getitem r "end_time"
         = Ok (VDatetime (stamp W convert_to_local e))
      /\ py_getitem r "duration_sec" = py_getitem p "duration"
      /\ py_getitem r "start_direction" = py_getitem p "startAzCompass"
      /\ py_getitem r "end_direction" = py_getitem p "endAzCompass"
      /\ py_getitem r "max_elevation_deg" = py_getitem p "maxEl"
      /\ py_getitem r "brightness_mag" = py_getitem p "mag".
Proof.
  intros W conv p.
  destruct p as [| | | | |?|items|]; try discriminate.
  unfold wf_visual_pass. intros H.
  apply andb_prop in H. destruct H as [H Hkeys].
  apply andb_prop in H. destruct H as [Hs He].
  apply timestamp_field_ok_inv in Hs, He.
  destruct Hs as [s [Hs Hsok]]. destruct He as [e [He Heok]].
  assert (Hsi : int_field "startUTC" (VDict items) = Some s)
    by (unfold int_field; now rewrite Hs).
  assert (Hei : int_field "endUTC" (VDict items) = Some e)
    by (unfold int_field; now rewrite He).
  apply py_getitem_some in Hs, He.
  read_keys Hkeys.
  eexists. exists s, e. split.
  - unfold visual_pass_record. run_getitems.
    rewrite (fromtimestamp_utc_ok W conv s Hsok). cbn [obind]. run_getitems.
    rewrite (fromtimestamp_utc_ok W conv e Heok). cbn [obind].
    rewrite (localize_ok W conv s Hsok). cbn [obind].
    rewrite (localize_ok W conv e Heok). cbn [obind].
    run_getitems. reflexivity.
  - split; [exact Hsi|]. split; [exact Hei|].
    repeat match goal with
      | Hk : py_getitem (VDict items) ?k = Ok _
        |- context [py_getitem (VDict items) ?k] => rewrite Hk
      end.
    repeat split; reflexivity.
Qed.

Lemma visual_pass_record_copies_duration_witness :
  exists r s e,
    visual_pass_record (canned_world (Ok VNone)) true visual_pass = Ok r
    /\ int_field "startUTC" visual_pass = Some s
    /\ int_field "endUTC" visual_pass = Some e
    /\ py_getitem r "start_time"
       = Ok (VDatetime (stamp (canned_world (Ok VNone)) true s))
    /\ py_getitem r "end_time"
       = Ok (VDatetime (stamp (canned_world (Ok VNone)) true e))
    /\ py_getitem r "duration_sec" = py_getitem visual_pass "duration"
    /\ py_getitem r "start_direction" = py_getitem visual_pass "startAzCompass"
    /\ py_getitem r "end_direction" = py_getitem visual_pass "endAzCompass"
    /\ py_getitem r "max_elevation_deg" = py_getitem visual_pass "maxEl"
    /\ py_getitem r "brightness_mag" = py_getitem visual_pass "mag".
Proof.
  apply (visual_pass_record_copies_duration (canned_world (Ok VNone)) true
           visual_pass).
  vm_compute. reflexivity.
Defined.

Lemma fromtimestamp_utc_is_utc (W : World) (v : value) (d : datetime) :
  fromtimestamp_utc W v = Ok d -> dt_tz d = UTC.
Proof.
  unfold fromtimestamp_utc.
  destruct v as [|b|z|f| | | |]; try discriminate.
  - destruct (PyTime.in_range _); [|discriminate].
    intros H. now injection H as <-.
  - destruct (PyTime.in_range _); [|discriminate].
    intros H. now injection H as <-.
  - destruct (float_timestamp W f) as [us|]; [|discriminate].
    destruct (PyTime.in_range us); [|discriminate].
    intros H. now injection H as <-.
Qed.

Lemma astimezone_same_instant (W : World) (d l : datetime) :
  astimezone W d = Ok l ->
  dt_micros l = dt_micros d /\ exists off, dt_tz l = LocalTz off.
Proof.
  unfold astimezone. destruct (PyTime.in_range _); [|discriminate].
  intros H. injection H as <-. split; [reflexivity|]. eexists. reflexivity.
Qed.

(** X13.  Asking [get_radio_passes] for local times changes the time zone
    of the three moments of a pass and nothing else: where the record with
    local times is made, the record with UTC times is made too, its moments
    are the same instants, and its other fields, the duration among them,
    are equal. *)
Theorem local_times_are_the_same_instants :
  forall (W : World) (p r : value),
    radio_pass_record W true p = Ok r ->
    exists r',
      radio_pass_record W false p = Ok r'
      /\ same_instant (py_getitem r "start_time") (py_getitem r' "start_time")
      /\ same_instant (py_getitem r "max_time") (py_getitem r' "max_time")
      /\ same_instant (py_getitem r "end_time") (py_getitem r' "end_time")
      /\ py_getitem r "duration_sec" = py_getitem r' "duration_sec"
      /\ py_getitem r "start_direction" = py_getitem r' "start_direction"
      /\ py_getitem r "end_direction" = py_getitem r' "end_direction"
      /\ py_getitem r "max_elevation_deg" = py_getitem r' "max_elevation_deg".
Proof.
  intros W p r H. unfold radio_pass_record in *.
  destruct (py_getitem p "startUTC") as [ts|]; [|discriminate H].
  cbn [obind] in *.
  destruct (fromtimestamp_utc W ts) as [d1|] eqn:H1; [|discriminate H].
  cbn [obind] in *.
  destruct (py_getitem p "maxUTC") as [tm|]; [|discriminate H].
  cbn [obind] in *.
  destruct (fromtimestamp_utc W tm) as [d2|] eqn:H2; [|discriminate H].
  cbn [obind] in *.
  destruct (py_getitem p "endUTC") as [te|]; [|discriminate H].
  cbn [obind] in *.
  destruct (fromtimestamp_utc W te) as [d3|] eqn:H3; [|discriminate H].
  cbn [obind] in *.
  destruct (astimezone W d1) as [l1|] eqn:A1; [|discriminate H].
  cbn [obind] in *.
  destruct (astimezone W d2) as [l2|] eqn:A2; [|discriminate H].
  cbn [obind] in *.
  destruct (astimezone W d3) as [l3|] eqn:A3; [|discriminate H].
  cbn [obind] in *.
  apply astimezone_same_instant in A1, A2, A3.
  destruct A1 as [M1 [o1 T1]]. destruct A2 as [M2 [o2 T2]].
  destruct A3 as [M3 [o3 T3]].
  apply fromtimestamp_utc_is_utc in H1, H2, H3.
  unfold datetime_sub in *. rewrite T1, T3 in H. rewrite H1, H3.
  cbn [obind] in *.
  destruct (py_getitem p "startAzCompass"); [|discriminate H].
  cbn [obind] in *.
  destruct (py_getitem p "endAzCompass"); [|discriminate H].
  cbn [obind] in *.
  destruct (py_getitem p "maxEl"); [|discriminate H].
  cbn [obind] in *.
  injection H as <-. eexists. split; [reflexivity|].
  rewrite M1, M3.
  repeat split; try reflexivity;
    eexists; eexists; (split; [reflexivity|split; [reflexivity|assumption]]).
Qed.

Lemma local_times_are_the_same_instants_witness :
  exists r',
    radio_pass_record (canned_world (Ok VNone)) false radio_pass = Ok r'
    /\ same_instant
         (py_getitem
            (VDict
               [("start_time", VDatetime (Datetime 1000000000 (LocalTz 3600)));
                ("max_time", VDatetime (Datetime 1045000000 (LocalTz 3600)));
                ("end_time", VDatetime (Datetime 1090000000 (LocalTz 3600)));
                ("duration_sec", VInt 90);
                ("start_direction", VStr "NW");
                ("end_direction", VStr "ESE");
                ("max_elevation_deg", VInt 52)]) "start_time")
         (py_getitem r' "start_time").
Proof.
  destruct (local_times_are_the_same_instants (canned_world (Ok VNone))
              radio_pass
              (VDict
                 [("start_time", VDatetime (Datetime 1000000000 (LocalTz 3600)));
                  ("max_time", VDatetime (Datetime 1045000000 (LocalTz 3600)));
                  ("end_time", VDatetime (Datetime 1090000000 (LocalTz 3600)));
                  ("duration_sec", VInt 90);
                  ("start_direction", VStr "NW");
                  ("end_direction", VStr "ESE");
                  ("max_elevation_deg", VInt 52)]))
    as (r' & Hr & Hs & _).
  - vm_compute. reflexivity.
  - exists r'. split; [exact Hr|exact Hs].
Defined.

(** ** Launch dates *)

Section IsoDates.

Import PyStr Strptime.

Lemma digit_char_spec (n : Z) :
  0 <= n <= 9 ->
  is_digit (digit_char n) = true /\ digit_val (digit_char n) = n.
Proof.
  intros Hn.
  assert (Hall : forallb (fun k => is_digit (digit_char k)
                                   && (digit_val (digit_char k) =? k))
                   (map Z.of_nat (seq 0 10)) = true) by reflexivity.
  rewrite forallb_forall in Hall.
  assert (Hin : In n (map Z.of_nat (seq 0 10))).
  { replace n with (Z.of_nat (Z.to_nat n)) by lia.
    apply in_map, in_seq. lia. }
  apply Hall in Hin. apply andb_prop in Hin. destruct Hin as [Hd Hv].
  split; [exact Hd|now apply Z.eqb_eq].
Qed.

Lemma read_year_dash_digits (a b c d : Z) (rest : string) :
  0 <= a <= 9 -> 0 <= b <= 9 -> 0 <= c <= 9 -> 0 <= d <= 9 ->
  read_year_dash
    (String (digit_char a)
       (String (digit_char b)
          (String (digit_char c)
             (String (digit_char d) (String "-" rest)))))
  = Some (1000 * a + 100 * b + 10 * c + d, rest).
Proof.
  intros Ha Hb Hc Hd. unfold read_year_dash.
  destruct (digit_char_spec a Ha) as [-> ->].
  destruct (digit_char_spec b Hb) as [-> ->].
  destruct (digit_char_spec c Hc) as [-> ->].
  destruct (digit_char_spec d Hd) as [-> ->].
  reflexivity.
Qed.

Lemma read_year_dash_four_digits (y : Z) (rest : string) :
  0 <= y <= 9999 ->
  read_year_dash (four_digits y ++ "-" ++ rest) = Some (y, rest).
Proof.
  intros Hy. unfold four_digits, two_digits. cbn [append].
  rewrite read_year_dash_digits by (Z.div_mod_to_equations; lia).
  do 2 f_equal. Z.div_mod_to_equations; lia.
Qed.

Lemma read_month_dash_two_digits (m : Z) (rest : string) :
  1 <= m <= 12 ->
  read_month_dash (two_digits m ++ "-" ++ rest) = Some (m, rest).
Proof.
  intros H.
  assert (Hm : m = 1 \/ m = 2 \/ m = 3 \/ m = 4 \/ m = 5 \/ m = 6 \/ m = 7
               \/ m = 8 \/ m = 9 \/ m = 10 \/ m = 11 \/ m = 12) by lia.
  repeat (destruct Hm as [->|Hm]; [reflexivity|]).
  subst m. reflexivity.
Qed.

Lemma read_day_two_digits (d : Z) :
  1 <= d <= 31 -> read_day (two_digits d) = Some (d, EmptyString).
Proof.
  intros H.
  assert (Hd : d = 1 \/ d = 2 \/ d = 3 \/ d = 4 \/ d = 5 \/ d = 6 \/ d = 7
               \/ d = 8 \/ d = 9 \/ d = 10 \/ d = 11 \/ d = 12 \/ d = 13
               \/ d = 14 \/ d = 15 \/ d = 16 \/ d = 17 \/ d = 18 \/ d = 19
               \/ d = 20 \/ d = 21 \/ d = 22 \/ d = 23 \/ d = 24 \/ d = 25
               \/ d = 26 \/ d = 27 \/ d = 28 \/ d = 29 \/ d = 30 \/ d = 31)
    by lia.
  repeat (destruct Hd as [->|Hd]; [reflexivity|]).
  subst d. reflexivity.
Qed.

(** Reading a date written as YYYY-MM-DD is building the date from its
    three numbers. *)
Lemma strptime_iso_date (y m d : Z) :
  0 <= y <= 9999 -> 1 <= m <= 12 -> 1 <= d <= 31 ->
  strptime_ymd (iso_date y m d) = PyTime.make_date y m d.
Proof.
  intros Hy Hm Hd. unfold strptime_ymd, iso_date.
  rewrite read_year_dash_four_digits by exact Hy.
  rewrite read_month_dash_two_digits by exact Hm.
  rewrite read_day_two_digits by exact Hd.
  reflexivity.
Qed.

End IsoDates.

(** X14.  A launch date written as YYYY-MM-DD is read as the date of those
    three numbers: the record of the satellite holds the midnight of that
    day, without time zone, when the calendar has the day, and [None] when
    it has not (a 30th of February, a year 0). *)
Theorem launch_date_written_as_iso_is_read :
  forall (items : list (string * value)) (y m d : Z),
    lookup "launchDate" items = Some (VStr (iso_date y m d)) ->
    0 <= y <= 9999 -> 1 <= m <= 12 -> 1 <= d <= 31 ->
    launch_date_of (VDict items)
    = if (1 <=? y) && (d <=? PyTime.days_in_month y m)
      then VDatetime
             (Datetime ((PyTime.ymd2ord y m d - PyTime.EPOCH_ORD) * 86400
                        * PyTime.US_PER_SECOND) Naive)
      else VNone.
Proof.
  intros items y m d Hdate Hy Hm Hd.
  unfold launch_date_of, py_getitem, obind. rewrite Hdate.
  unfold py_strptime_ymd. rewrite strptime_iso_date by assumption.
  unfold PyTime.make_date.
  replace (y <=? 9999) with true by (symmetry; apply Z.leb_le; lia).
  replace (1 <=? m) with true by (symmetry; apply Z.leb_le; lia).
  replace (m <=? 12) with true by (symmetry; apply Z.leb_le; lia).
  replace (1 <=? d) with true by (symmetry; apply Z.leb_le; lia).
  destruct (1 <=? y); cbn [andb negb]; [|reflexivity].
  destruct (d <=? PyTime.days_in_month y m); reflexivity.
Qed.

Lemma launch_date_written_as_iso_is_read_witness :
  launch_date_of (VDict [("launchDate", VStr "1998-11-20")])
  = if (1 <=? 1998) && (20 <=? PyTime.days_in_month 1998 11)
    then VDatetime
           (Datetime ((PyTime.ymd2ord 1998 11 20 - PyTime.EPOCH_ORD) * 86400
                      * PyTime.US_PER_SECOND) Naive)
    else VNone.
Proof.
  apply (launch_date_written_as_iso_is_read
           [("launchDate", VStr "1998-11-20")] 1998 11 20).
  - reflexivity.
  - lia.
  - lia.
  - lia.
Defined.

Section Calendar.

Import PyTime.

Lemma days_before_year_next (y : Z) :
  days_before_year (y + 1)
  = days_before_year y + 365 + (if is_leap y then 1 else 0).
Proof.
  unfold days_before_year, is_leap.
  replace (y + 1 - 1) with y by lia.
  destruct (Z.eqb_spec (y mod 4) 0), (Z.eqb_spec (y mod 100) 0),
    (Z.eqb_spec (y mod 400) 0); cbn [andb orb negb];
    Z.div_mod_to_equations; lia.
Qed.

(** Settles the bound on the day of the year for one month. *)
Ltac day_of_year_case y :=
  match goal with
  | |- context [Z.to_nat ?e] =>
      let n := eval vm_compute in (Z.to_nat e) in
      change (Z.to_nat e) with n
  end;
  cbn [days_before_month_aux Z.of_nat Pos.of_succ_nat Pos.succ];
  unfold days_in_month;
  cbn [Z.eqb Pos.eqb orb];
  destruct (is_leap y); lia.

Lemma day_of_year_bound (y m d : Z) :
  1 <= m <= 12 -> 1 <= d <= days_in_month y m ->
  1 <= days_before_month y m + d <= 365 + (if is_leap y then 1 else 0).
Proof.
  intros Hm.
  assert (H : m = 1 \/ m = 2 \/ m = 3 \/ m = 4 \/ m = 5 \/ m = 6 \/ m = 7
              \/ m = 8 \/ m = 9 \/ m = 10 \/ m = 11 \/ m = 12) by lia.
  unfold days_before_month.
  repeat (destruct H as [->|H]; [day_of_year_case y|]).
  subst m. day_of_year_case y.
Qed.

Lemma ymd2ord_bound (y m d : Z) :
  1 <= y <= 9999 -> 1 <= m <= 12 -> 1 <= d <= days_in_month y m ->
  1 <= ymd2ord y m d <= 3652059.
Proof.
  intros Hy Hm Hd.
  pose proof (day_of_year_bound y m d Hm Hd) as Hday.
  pose proof (days_before_year_next y) as Hnext.
  unfold ymd2ord.
  assert (Hlo : 0 <= days_before_year y)
    by (unfold days_before_year; Z.div_mod_to_equations; lia).
  assert (Hhi : days_before_year (y + 1) <= 3652059)
    by (unfold days_before_year; Z.div_mod_to_equations; lia).
  lia.
Qed.

(** A date the calendar has is a naive midnight within the range of
    [datetime]. *)
Lemma make_date_ok (y m d : Z) (dt : datetime) :
  make_date y m d = Ok dt ->
  dt_tz dt = Naive
  /\ in_range (dt_micros dt) = true
  /\ dt_micros dt mod (86400 * US_PER_SECOND) = 0.
Proof.
  unfold make_date.
  destruct ((1 <=? y) && (y <=? 9999)) eqn:Hy; cbn [negb]; [|discriminate].
  destruct ((1 <=? m) && (m <=? 12)) eqn:Hm; cbn [negb]; [|discriminate].
  destruct ((1 <=? d) && (d <=? days_in_month y m)) eqn:Hd; cbn [negb];
    [|discriminate].
  intros H. injection H as <-. cbn [dt_tz dt_micros].
  apply andb_prop in Hy, Hm, Hd.
  destruct Hy as [Hy1 Hy2]. destruct Hm as [Hm1 Hm2]. destruct Hd as [Hd1 Hd2].
  apply Z.leb_le in Hy1, Hy2, Hm1, Hm2, Hd1, Hd2.
  pose proof (ymd2ord_bound y m d (conj Hy1 Hy2) (conj Hm1 Hm2)
                (conj Hd1 Hd2)) as Hord.
  split; [reflexivity|]. split.
  - unfold in_range, MIN_US, MAX_US, EPOCH_ORD, US_PER_SECOND.
    apply andb_true_intro. split; apply Z.leb_le; lia.
  - rewrite <- Z.mul_assoc. apply Z.mod_mul.
    unfold US_PER_SECOND. lia.
Qed.

End Calendar.

Lemma strptime_ymd_is_a_date (s : string) (dt : datetime) :
  Strptime.strptime_ymd s = Ok dt ->
  exists y m d, PyTime.make_date y m d = Ok dt.
Proof.
  unfold Strptime.strptime_ymd, Strptime.no_match.
  destruct (Strptime.read_year_dash s) as [[y s1]|]; [|discriminate].
  destruct (Strptime.read_month_dash s1) as [[m s2]|]; [|discriminate].
  destruct (Strptime.read_day s2) as [[d [|? ?]]|]; try discriminate.
  intros H. now exists y, m, d.
Qed.

(** X15.  The [launch_date] of a satellite record is [None] or the midnight
    of a day between 0001-01-01 and 9999-12-31, without time zone: whatever
    text the answer holds, nothing else comes out. *)
Theorem launch_date_is_none_or_a_day :
  forall sat : value,
    launch_date_of sat = VNone
    \/ exists dt,
         launch_date_of sat = VDatetime dt
         /\ dt_tz dt = Naive
         /\ PyTime.in_range (dt_micros dt) = true
         /\ dt_micros dt mod (86400 * PyTime.US_PER_SECOND) = 0.
Proof.
  intros sat. unfold launch_date_of, obind.
  destruct (py_getitem sat "launchDate") as [raw|]; [|now left].
  destruct (py_strptime_ymd raw) as [dt|] eqn:Hdt; [|now left].
  right. exists dt. split; [reflexivity|].
  destruct raw as [| | | |s| | |]; try discriminate Hdt.
  cbn [py_strptime_ymd] in Hdt.
  destruct (strptime_ymd_is_a_date s dt Hdt) as (y & m & d & Hmake).
  exact (make_date_ok y m d dt Hmake).
Qed.

(** ** The lines of the element set *)

Section Segments.

Import PyStr.









End Segments.



(** ** The demonstration *)

Module DriverFacts.

Import Driver.

Section Sending.

Context {A B : Type}.

Lemma sends_ret (a : A) : sends (ret a) [].
Proof. intros t0. simpl. now rewrite app_nil_r. Qed.

Lemma sends_lift (o : outcome A) : sends (lift o) [].
Proof. intros t0. simpl. now rewrite app_nil_r. Qed.

Lemma sends_bind (m : M A) (k : A -> M B) (reqs : list event) :
  sends m reqs -> (forall a, sends (k a) []) -> sends (bind m k) reqs.
Proof.
  intros Hm Hk t0. unfold bind. specialize (Hm t0).
  destruct (m t0) as [[a|e] t1]; cbn [snd] in *; [|exact Hm].
  rewrite (Hk a t1), Hm. now rewrite app_nil_r.
Qed.

Lemma sends_try_except (m : M A) (handler : exn -> M A) (reqs : list event) :
  sends m reqs -> (forall e, sends (handler e) []) ->
  sends (try_except m handler) reqs.
Proof.
  intros Hm Hh t0. unfold try_except. specialize (Hm t0).
  destruct (m t0) as [[a|e] t1]; cbn [snd] in *; [exact Hm|].
  rewrite (Hh e t1), Hm. now rewrite app_nil_r.
Qed.

End Sending.

Lemma network_calls_app (t1 t2 : trace) :
  network_calls (t1 ++ t2)%list
  = (network_calls t1 ++ network_calls t2)%list.
Proof. apply filter_app. Qed.

Lemma sends_print (line : string) : sends (print line) [].
Proof.
  intros t0. unfold print. cbn [snd]. now rewrite network_calls_app.
Qed.

Lemma sends_request (W : World) (url : string) (timeout : option Z) :
  sends (request_json W url timeout) [EvGet url timeout].
Proof.
  intros t0. unfold request_json. cbn [snd]. now rewrite network_calls_app.
Qed.

Lemma sends_log_and_reraise (e : exn) : sends (@log_and_reraise value e) [].
Proof.
  intros t0. rewrite log_and_reraise_trace. cbn [snd].
  now rewrite network_calls_app, (proj2 (logged_lines_short e)).
Qed.

Lemma sends_warn_and_return_none (e : exn) :
  sends (warn_and_return_none e) [].
Proof.
  intros t0. rewrite warn_and_return_none_trace.
  destruct (is_RequestException e); cbn [snd].
  - now rewrite network_calls_app.
  - now rewrite app_nil_r.
Qed.

Lemma sends_for_each (body : value -> M unit) (items : list value) :
  (forall p, sends (body p) []) -> sends (for_each body items) [].
Proof.
  intros Hbody. induction items as [|p rest IH]; cbn [for_each].
  - apply sends_ret.
  - apply sends_bind; [apply Hbody|intros _; exact IH].
Qed.

(** A request, the reading of the answer, and the [except] clause: the
    request and nothing else is sent. *)
Lemma sends_request_then (W : World) (url : string) (timeout : option Z)
    (f : value -> outcome value) (handler : exn -> M value) :
  (forall e, sends (handler e) []) ->
  sends (try_except (data <- request_json W url timeout ;; lift (f data))%M
           handler)
    [EvGet url timeout].
Proof.
  intros Hh. apply sends_try_except; [|exact Hh].
  apply sends_bind; [apply sends_request|intros data; apply sends_lift].
Qed.

(** Settles that a computation made of look-ups, prints and loops of
    prints sends nothing. *)
Ltac quiet :=
  repeat first
    [ apply sends_print
    | apply sends_lift
    | apply sends_ret
    | apply sends_for_each; intros ?
    | apply sends_bind; [|intros ?]
    | match goal with
      | |- sends (if ?b then _ else _) _ => destruct b
      end ].

Section Blocks.

Variable W : World.
Variable format_fixed : nat -> value -> outcome string.
Variable client : N2YOClient.

Lemma show_first_five_quiet (result : value) (k : string)
    (line : value -> outcome string) :
  sends (show_first_five result k line) [].
Proof. unfold show_first_five. quiet. Qed.

Lemma show_tle_sends :
  sends (show_tle W client) [EvGet (tle_url W client ISS) None].
Proof.
  unfold show_tle. apply sends_bind; [|intros iss_tle; quiet].
  unfold get_tle. cbn [truthy ISS negb Z.eqb]. cbv zeta.
  apply sends_request_then, sends_log_and_reraise.
Qed.

Lemma show_visual_passes_sends :
  sends (show_visual_passes W client)
    [EvGet (passes_url W client "visualpasses" ISS observer_lat observer_lng
              observer_alt (VInt 5) (VInt 100)) (Some 10)].
Proof.
  unfold show_visual_passes. apply sends_bind; [|intros visual_passes; quiet].
  unfold get_visual_passes. cbv zeta.
  apply sends_request_then, sends_warn_and_return_none.
Qed.

Lemma show_positions_sends :
  sends (show_positions W format_fixed client)
    [EvGet (positions_url W client ISS observer_lat observer_lng observer_alt
              (VInt 60)) None].
Proof.
  unfold show_positions.
  apply sends_bind;
    [|intros positions; quiet; apply show_first_five_quiet].
  unfold get_positions.
  change (py_all [ISS; observer_lat; observer_lng]) with true.
  change (py_gt_int (VInt 60) 300) with (@Ok bool false).
  cbn [negb]. cbv zeta.
  apply sends_request_then, sends_log_and_reraise.
Qed.

Lemma show_objects_above_sends :
  sends (show_objects_above W format_fixed client)
    [EvGet (above_url W client observer_lat observer_lng observer_alt
              (VInt 45) (VInt 0)) (Some 15)].
Proof.
  unfold show_objects_above.
  apply sends_bind;
    [|intros satellites_above; quiet; apply show_first_five_quiet].
  unfold get_objects_above. cbv zeta.
  apply sends_request_then, sends_warn_and_return_none.
Qed.

Lemma guarded_sends (what : string) (body : M unit) (reqs : list event) :
  sends body reqs -> sends (guarded what body) reqs.
Proof.
  intros Hbody. apply sends_try_except; [exact Hbody|].
  intros e. apply sends_print.
Qed.

Lemma guarded_never_raises (what : string) (body : M unit) :
  never_raises (guarded what body).
Proof.
  intros t0. unfold guarded, try_except.
  destruct (body t0) as [[[]|e] t1]; reflexivity.
Qed.

(** A line is printed, then a guarded block runs, then the rest. *)
Lemma announced_block_sends (line what : string) (body rest : M unit)
    (reqs others : list event) :
  sends body reqs -> sends rest others ->
  sends (print line ;; guarded what body ;; rest)%M (reqs ++ others).
Proof.
  intros Hbody Hrest t0. unfold bind at 1. unfold print at 1.
  unfold bind. 
  pose proof (guarded_sends what body reqs Hbody
                (t0 ++ [EvPrint line])%list) as Hg.
  pose proof (guarded_never_raises what body (t0 ++ [EvPrint line])%list)
    as Hok.
  destruct (guarded what body (t0 ++ [EvPrint line])%list) as [o t1].
  cbn [fst snd] in *. subst o.
  rewrite (Hrest t1), Hg, network_calls_app.
  change (network_calls [EvPrint line]) with (@nil event).
  now rewrite app_nil_r, app_assoc.
Qed.

Lemma announced_block_never_raises (line what : string) (body rest : M unit) :
  never_raises rest ->
  never_raises (print line ;; guarded what body ;; rest)%M.
Proof.
  intros Hrest t0. unfold bind at 1. unfold print at 1. unfold bind.
  pose proof (guarded_never_raises what body (t0 ++ [EvPrint line])%list)
    as Hok.
  destruct (guarded what body (t0 ++ [EvPrint line])%list) as [o t1].
  cbn [fst] in Hok. subst o. apply Hrest.
Qed.

Lemma last_block_sends (line what : string) (body : M unit)
    (reqs : list event) :
  sends body reqs -> sends (print line ;; guarded what body)%M reqs.
Proof.
  intros Hbody t0. unfold bind, print.
  rewrite (guarded_sends what body reqs Hbody), network_calls_app.
  change (network_calls [EvPrint line]) with (@nil event).
  now rewrite app_nil_r.
Qed.

Lemma last_block_never_raises (line what : string) (body : M unit) :
  never_raises (print line ;; guarded what body)%M.
Proof. intros t0. unfold bind, print. apply guarded_never_raises. Qed.

End Blocks.

(** X17.  The demonstration without a key prints one line and sends
    nothing.  With a key it builds the client and sends four requests, in
    the order TLE, visual passes, positions, objects above, whatever the
    service answers to each, and ends without an exception: a call that
    fails does not stop the calls after it. *)
Theorem main_sends_four_requests :
  forall (W : World) (format_fixed : nat -> value -> outcome string)
         (env_key : value),
    (truthy env_key = false ->
     run (main W format_fixed env_key)
     = (Ok tt, [EvPrint "Error: N2YO_KEY not found in .env file."]))
    /\ (truthy env_key = true ->
        exists client,
          N2YOClient_init env_key = Ok client
          /\ fst (run (main W format_fixed env_key)) = Ok tt
          /\ network_calls (snd (run (main W format_fixed env_key)))
             = main_requests W client).
Proof.
  intros W format_fixed env_key. split; intros Hkey.
  - unfold main. rewrite Hkey. reflexivity.
  - unfold main, N2YOClient_init. rewrite Hkey. cbn [negb].
    eexists. split; [reflexivity|].
    unfold run. unfold bind at 1. unfold lift at 1.
    match goal with
    | |- fst (?m []) = _ /\ _ =>
        assert (Hok : never_raises m);
        [|assert (Hsent : sends m (main_requests W
                                     {| api_key := env_key;
                                        base_url :=
                                          "https://api.n2yo.com/rest/v1/satellite" |}))]
    end.
    + repeat apply announced_block_never_raises.
      apply last_block_never_raises.
    + unfold main_requests.
      apply (announced_block_sends _ _ _ _ [_] [_; _; _]);
        [apply show_tle_sends|].
      apply (announced_block_sends _ _ _ _ [_] [_; _]);
        [apply show_visual_passes_sends|].
      apply (announced_block_sends _ _ _ _ [_] [_]);
        [apply show_positions_sends|].
      apply last_block_sends, show_objects_above_sends.
    + split; [exact (Hok [])|exact (Hsent [])].
Qed.

(** With the key KEY and a service that answers nothing, the four requests
    are these. *)
Example main_requests_example :
  network_calls
    (snd (run (main (canned_world (Raise connection_error))
                 (fun _ _ => Ok "0.0000") (VStr "KEY"))))
  = main_requests (canned_world (Raise connection_error)) demo_client
  /\ List.length
       (snd (run (main (canned_world (Raise connection_error))
                    (fun _ _ => Ok "0.0000") (VStr "KEY")))) = 18%nat.
Proof. split; vm_compute; reflexivity. Qed.

End DriverFacts.

(** ** The duration of a radio pass *)

Lemma int_total_seconds_truncates (us : Z) :
  Z.abs us < 2 ^ 34 * PyTime.US_PER_SECOND ->
  PyTime.int_total_seconds us = Z.quot us PyTime.US_PER_SECOND.
Proof.
  unfold PyTime.int_total_seconds, PyTime.US_PER_SECOND. intros Hsmall.
  rewrite (Z.quot_div us 1000000) by lia.
  change (Z.sgn 1000000) with 1. change (Z.abs 1000000) with 1000000.
  rewrite Z.mul_1_r.
  destruct (Z.eqb_spec (Z.abs us mod 1000000) 0) as [Hr|Hr]; [reflexivity|].
  set (a := Z.abs us) in *. set (q := a / 1000000).
  assert (Hq : 0 <= q < 2 ^ 34)
    by (subst q; change (2 ^ 34) with 17179869184 in *;
        pose proof (Z.abs_nonneg us); fold a in H;
        Z.div_mod_to_equations; lia).
  assert (Hk : Z.log2_up (q + 1) <= 34)
    by (apply Z.log2_up_le_pow2; lia).
  assert (Hpow : 2 ^ 20 <= 2 ^ (54 - Z.log2_up (q + 1)))
    by (apply Z.pow_le_mono_r; lia).
  change (2 ^ 20) with 1048576 in Hpow.
  assert (Hgap : 1 <= (q + 1) * 1000000 - a)
    by (subst q; Z.div_mod_to_equations; lia).
  destruct (Z.leb_spec
              (((q + 1) * 1000000 - a) * 2 ^ (54 - Z.log2_up (q + 1)))
              1000000) as [Hle|Hgt]; [|reflexivity].
  exfalso. nia.
Qed.

(** X18.  The [duration_sec] of a radio pass agrees with the two moments of
    its record: it is the time from [start_time] to [end_time] in whole
    seconds, cut toward zero and never rounded up, for any two moments less
    than 2^34 seconds (some 544 years) apart. *)
Theorem radio_duration_agrees_with_the_moments :
  forall (W : World) (convert_to_local : bool) (p r : value),
    radio_pass_record W convert_to_local p = Ok r ->
    exists s e,
      py_getitem r "start_time" = Ok (VDatetime s)
      /\ py_getitem r "end_time" = Ok (VDatetime e)
      /\ (Z.abs (dt_micros e - dt_micros s) < 2 ^ 34 * PyTime.US_PER_SECOND ->
          py_getitem r "duration_sec"
          = Ok (VInt (Z.quot (dt_micros e - dt_micros s)
                        PyTime.US_PER_SECOND))).
Proof.
  intros W conv p r H. unfold radio_pass_record in H.
  destruct (py_getitem p "startUTC") as [ts|]; [|discriminate H].
  cbn [obind] in H.
  destruct (fromtimestamp_utc W ts) as [d1|] eqn:H1; [|discriminate H].
  cbn [obind] in H.
  destruct (py_getitem p "maxUTC") as [tm|]; [|discriminate H].
  cbn [obind] in H.
  destruct (fromtimestamp_utc W tm) as [d2|] eqn:H2; [|discriminate H].
  cbn [obind] in H.
  destruct (py_getitem p "endUTC") as [te|]; [|discriminate H].
  cbn [obind] in H.
  destruct (fromtimestamp_utc W te) as [d3|] eqn:H3; [|discriminate H].
  cbn [obind] in H.
  apply fromtimestamp_utc_is_utc in H1, H2, H3.
  assert (Hsub : forall l1 l3,
             (if conv then astimezone W d1 else Ok d1) = Ok l1 ->
             (if conv then astimezone W d3 else Ok d3) = Ok l3 ->
             datetime_sub l3 l1 = Ok (dt_micros l3 - dt_micros l1)).
  { intros l1 l3 E1 E3. unfold datetime_sub. destruct conv.
    - apply astimezone_same_instant in E1, E3.
      destruct E1 as [_ [o1 ->]]. destruct E3 as [_ [o3 ->]]. reflexivity.
    - injection E1 as <-. injection E3 as <-. now rewrite H1, H3. }
  destruct (if conv then astimezone W d1 else Ok d1) as [l1|] eqn:E1;
    [|discriminate H].
  cbn [obind] in H.
  destruct (if conv then astimezone W d2 else Ok d2) as [l2|];
    [|discriminate H].
  cbn [obind] in H.
  destruct (if conv then astimezone W d3 else Ok d3) as [l3|] eqn:E3;
    [|discriminate H].
  cbn [obind] in H.
  rewrite (Hsub l1 l3 eq_refl eq_refl) in H. cbn [obind] in H.
  destruct (py_getitem p "startAzCompass"); [|discriminate H].
  cbn [obind] in H.
  destruct (py_getitem p "endAzCompass"); [|discriminate H].
  cbn [obind] in H.
  destruct (py_getitem p "maxEl"); [|discriminate H].
  cbn [obind] in H.
  injection H as <-. exists l1, l3.
  split; [reflexivity|]. split; [reflexivity|].
  intros Hsmall. now rewrite <- int_total_seconds_truncates.
Qed.

Lemma radio_duration_agrees_with_the_moments_witness :
  exists s e,
    py_getitem
      (VDict
         [("start_time", VDatetime (Datetime 1000000000 (LocalTz 3600)));
          ("max_time", VDatetime (Datetime 1045000000 (LocalTz 3600)));
          ("end_time", VDatetime (Datetime 1090000000 (LocalTz 3600)));
          ("duration_sec", VInt 90);
          ("start_direction", VStr "NW");
          ("end_direction", VStr "ESE");
          ("max_elevation_deg", VInt 52)]) "start_time"
    = Ok (VDatetime s)
    /\ py_getitem
         (VDict
            [("start_time", VDatetime (Datetime 1000000000 (LocalTz 3600)));
             ("max_time", VDatetime (Datetime 1045000000 (LocalTz 3600)));
             ("end_time", VDatetime (Datetime 1090000000 (LocalTz 3600)));
             ("duration_sec", VInt 90);
             ("start_direction", VStr "NW");
             ("end_direction", VStr "ESE");
             ("max_elevation_deg", VInt 52)]) "end_time"
       = Ok (VDatetime e)
    /\ (Z.abs (dt_micros e - dt_micros s) < 2 ^ 34 * PyTime.US_PER_SECOND ->
        py_getitem
          (VDict
             [("start_time", VDatetime (Datetime 1000000000 (LocalTz 3600)));
              ("max_time", VDatetime (Datetime 1045000000 (LocalTz 3600)));
              ("end_time", VDatetime (Datetime 1090000000 (LocalTz 3600)));
              ("duration_sec", VInt 90);
              ("start_direction", VStr "NW");
              ("end_direction", VStr "ESE");
              ("max_elevation_deg", VInt 52)]) "duration_sec"
        = Ok (VInt (Z.quot (dt_micros e - dt_micros s)
                      PyTime.US_PER_SECOND))).
Proof.
  apply (radio_duration_agrees_with_the_moments
           (canned_world (Ok VNone)) true radio_pass).
  vm_compute. reflexivity.
Defined.
